(** * Local Outlier Factor detector ([lof/lof.py]): model and properties

    The detector is [class LOF] with the methods [fit] and [predict].
    [predict] is numpy code over float64 arrays that calls scikit-learn's
    [NearestNeighbors] for the (k+1)-nearest-neighbour search.  ([LOF]
    extends [BaseAnomalyDetector]; the three methods of [LOF] call nothing
    of it.)

    Layout of the development:
    - [Scalar]: the arithmetic the numpy code uses, as an interface, with two
      instances: [float64] (IEEE binary64, what numpy computes with) and
      [real] (the exact arithmetic that the formulas of the algorithm are
      stated in); [ExactScalar] collects the laws of exact arithmetic, and
      [OrderedScalar] the law of [np.maximum] that both instances satisfy;
    - [result], [exn]: Python exceptions;
    - numpy indexing and reductions on lists;
    - the object store: detectors and arrays live at locations, attributes
      hold references;
    - [fit] and [predict], line by line; the neighbour search is a
      parameter of [predict];
    - [brute_kneighbors], a reference neighbour search, and [knn_post], the
      contract that scikit-learn documents for the search;
    - the properties: inversion of the two loops, the reference search
      within the contract, and the theorems on [fit] and [predict].

    The module [cA] and the last part of the development are on the
    training loop of the contractive auto-encoder,
    [ContractiveAutoEncoder.fit] of [anomdet/autoencoder/cA.py]. *)

From Stdlib Require Import ZArith Reals Lra.
From Stdlib Require Floats.
From stdpp Require Import base option list sorting gmap strings.

(** ** Scalars *)

(** The operations [predict] performs on array elements; the names on the
    right are the numpy / Python operations they stand for. *)
Class Scalar (F : Type) := {
  s_zero : F;                    (* np.zeros, the 0 that sum() starts from *)
  s_of_Z : Z → F;                (* a Python int meeting a float64 *)
  s_add : F → F → F;             (* +  *)
  s_sub : F → F → F;             (* -  *)
  s_mul : F → F → F;             (* x * x, for x**2 *)
  s_div : F → F → F;             (* /  *)
  s_sqrt : F → F;                (* np.sqrt *)
  s_maximum : F → F → F;         (* np.maximum, the binary step of np.max *)
  s_leb : F → F → bool;          (* <= *)
}.

Declare Scope scalar_scope.
Delimit Scope scalar_scope with S.
Infix "+" := s_add : scalar_scope.
Infix "-" := s_sub : scalar_scope.
Infix "*" := s_mul : scalar_scope.
Infix "/" := s_div : scalar_scope.
Infix "<=?" := s_leb : scalar_scope.

(** *** IEEE binary64 *)

(** Conversion of a Python int to float64, rounding to nearest. *)
Definition float_of_Z (z : Z) : PrimFloat.float :=
  FloatOps.SF2Prim
    (SpecFloat.binary_normalize FloatOps.prec FloatOps.emax z 0 false).

(** [np.maximum]: a NaN operand wins, otherwise the larger one. *)
Definition float_maximum (a b : PrimFloat.float) : PrimFloat.float :=
  if PrimFloat.is_nan a then a
  else if PrimFloat.ltb b a then a else b.

#[export] Instance float64 : Scalar PrimFloat.float := {|
  s_zero := PrimFloat.zero;
  s_of_Z := float_of_Z;
  s_add := PrimFloat.add;
  s_sub := PrimFloat.sub;
  s_mul := PrimFloat.mul;
  s_div := PrimFloat.div;
  s_sqrt := PrimFloat.sqrt;
  s_maximum := float_maximum;
  s_leb := PrimFloat.leb;
|}.

(** *** Real numbers *)

(** Exact arithmetic.  A quotient by 0 has no meaning here (Rocq makes it
    0); what the code does with a zero divisor is seen in [float64]. *)

Definition Rleb (a b : R) : bool := if Rle_dec a b then true else false.

#[export] Instance real : Scalar R := {|
  s_zero := 0%R;
  s_of_Z := IZR;
  s_add := Rplus;
  s_sub := Rminus;
  s_mul := Rmult;
  s_div := Rdiv;
  s_sqrt := R_sqrt.sqrt;
  s_maximum := Rmax;
  s_leb := Rleb;
|}.

(** The laws of exact arithmetic that some properties rely on.  They hold
    for the reals; IEEE arithmetic satisfies them only up to rounding. *)
Class ExactScalar (F : Type) `{Scalar F} : Prop := {
  s_div_div : ∀ a b c : F, ((a / b) / c = a / (b * c))%S;
  s_sub_diag : ∀ a : F, (a - a = s_zero)%S;
  s_mul_zero : (s_zero * s_zero = s_zero :> F)%S;
  s_add_zero : (s_zero + s_zero = s_zero :> F)%S;
  s_sqrt_zero : s_sqrt s_zero = s_zero :> F;
  s_sqrt_nonneg : ∀ a : F, (s_zero <=? s_sqrt a)%S = true;
  s_leb_total : ∀ a b : F, (a <=? b)%S = true ∨ (b <=? a)%S = true;
  s_leb_trans : ∀ a b c : F,
    (a <=? b)%S = true → (b <=? c)%S = true → (a <=? c)%S = true;
  s_leb_antisym : ∀ a b : F, (a <=? b)%S = true → (b <=? a)%S = true → a = b;
}.

(** The one law that relates [np.maximum] to [<=].  It holds in both
    arithmetics. *)
Class OrderedScalar (F : Type) `{Scalar F} : Prop := {
  s_maximum_r : ∀ a b : F, (a <=? b)%S = true → s_maximum a b = b;
}.

(** ** Python exceptions *)

(** Where an exception is raised: by a [raise] statement of [lof.py]
    itself, inside scikit-learn's neighbour search, by a numpy operation
    that [lof.py] applies, or by the interpreter on an object of the wrong
    type. *)
Inductive origin := InLof | InSklearn | InNumpy | InPython.

Record exn := Exn {
  exn_origin : origin;
  exn_class : string;
  exn_msg : string;
}.

Inductive result (A : Type) :=
  | Ok (a : A)
  | Raise (e : exn).
Arguments Ok {A} a.
Arguments Raise {A} e.

#[export] Instance result_ret : MRet result := λ A, Ok.
#[export] Instance result_bind : MBind result := λ A B f m,
  match m with Ok a => f a | Raise e => Raise e end.

Definition IndexError : exn := Exn InNumpy "IndexError" "index out of bounds".

(** [for x in xs: s = body(s, x)], stopping at the first exception. *)
Fixpoint for_in {S A : Type} (xs : list A) (body : S → A → result S) (s : S)
    : result S :=
  match xs with
  | [] => Ok s
  | x :: xs' => s' ← body s x; for_in xs' body s'
  end.

(** [[f(x) for x in xs]], stopping at the first exception. *)
Fixpoint for_each {A B : Type} (f : A → result B) (xs : list A)
    : result (list B) :=
  match xs with
  | [] => Ok []
  | x :: xs' => y ← f x; ys ← for_each f xs'; Ok (y :: ys)
  end.

Definition xrange (n : nat) : list nat := seq 0 n.

(** ** numpy on lists *)

(** A 1-D array is the list of its elements, a 2-D array the list of its
    rows (all of one length, as numpy arrays are rectangular). *)
Abbreviation vector F := (list F).
Abbreviation matrix F := (list (list F)).

Section Numpy.
Context {F : Type} `{Scalar F}.

(** [a[i]] for an in-range index, on any list of rows or elements. *)
Definition getitem {A : Type} (a : list A) (i : nat) : result A :=
  match a !! i with
  | Some x => Ok x
  | None => Raise IndexError
  end.

(** [a[idx]] with an integer index array: the selected entries, copied. *)
Definition take_indices {A : Type} (a : list A) (idx : list nat)
    : result (list A) :=
  for_each (getitem a) idx.

(** [a[:, 1:]] *)
Definition columns_from_1 {A : Type} (a : list (list A)) : list (list A) :=
  drop 1 <$> a.

(** [a[:, -1]] *)
Definition last_column {A : Type} (a : list (list A)) : result (list A) :=
  for_each (λ row, match last row with
                   | Some x => Ok x
                   | None => Raise IndexError
                   end) a.

(** [np.zeros(n)] *)
Definition np_zeros (n : nat) : vector F := replicate n s_zero.

(** [x - m] for a row [x] and a 2-D array [m]: [x] is broadcast along the
    rows. *)
Definition broadcast_sub (x : vector F) (m : matrix F) : matrix F :=
  (λ row, zip_with s_sub x row) <$> m.

(** [m**2] *)
Definition np_square (m : matrix F) : matrix F :=
  fmap (M := list) (λ v : F, (v * v)%S) <$> m.

(** [np.sum(v)] and the builtin [sum(v)]: the elements added up from 0,
    left to right.  (numpy may associate the additions of a long row
    differently; exact arithmetic does not see the difference.) *)
Definition np_sum (v : vector F) : F := foldl s_add s_zero v.
Definition py_sum (v : vector F) : F := foldl s_add s_zero v.

(** [np.sum(m, 1)] *)
Definition np_sum_axis1 (m : matrix F) : vector F := np_sum <$> m.

(** [np.sqrt(v)] *)
Definition np_sqrt (v : vector F) : vector F := s_sqrt <$> v.

(** [np.max(np.vstack([a, b]), 0)] for two rows of one length. *)
Definition np_max_vstack2 (a b : vector F) : vector F :=
  zip_with s_maximum a b.

(** [np.max(v)] of a 1-D array, [None] for an empty one. *)
Definition np_max (v : vector F) : option F :=
  match v with
  | [] => None
  | x :: v' => Some (foldl s_maximum x v')
  end.

(** The Euclidean distance of two points, as lines 55-56 compute it. *)
Definition euclidean (x y : vector F) : F :=
  s_sqrt (np_sum ((λ v : F, (v * v)%S) <$> zip_with s_sub x y)).

(** The reachability distance from the point [x] to the row [j] of [X], as
    line 57 computes it: the larger of their distance and [k_dists[j]]. *)
Definition reach_dist (X : matrix F) (k_dists : vector F) (x : vector F)
    (j : nat) : option F :=
  xj ← X !! j; kdj ← k_dists !! j; Some (s_maximum (euclidean x xj) kdj).
End Numpy.

(** ** Python values and the object store *)

(** The numbers a detector can be built with: [LOF(3)], [LOF(2.5)].  An
    [int] is any integer; Python 2's separate type [long], for integers
    beyond the machine word, is left out. *)
Inductive pyval (F : Type) :=
  | PyInt (z : Z)
  | PyFloat (f : F).
Arguments PyInt {F} z.
Arguments PyFloat {F} f.

Section PyVal.
Context {F : Type} `{Scalar F}.

(** [v <= 0] *)
Definition py_le_0 (v : pyval F) : bool :=
  match v with
  | PyInt z => (z <=? 0)%Z
  | PyFloat f => (f <=? s_zero)%S
  end.

(** [isinstance(v, int)] *)
Definition isinstance_int (v : pyval F) : bool :=
  match v with
  | PyInt _ => true
  | PyFloat _ => false
  end.

(** [v + 1] *)
Definition py_add_1 (v : pyval F) : pyval F :=
  match v with
  | PyInt z => PyInt (z + 1)
  | PyFloat f => PyFloat (f + s_of_Z 1)%S
  end.

(** [v] is a positive integer: an [int] that is greater than 0. *)
Definition positive_int (v : pyval F) : Prop := ∃ z, v = PyInt z ∧ (0 < z)%Z.

(** The operand [v] of a division whose other operand is a float64. *)
Definition py_to_scalar (v : pyval F) : F :=
  match v with
  | PyInt z => s_of_Z z
  | PyFloat f => f
  end.
End PyVal.

(** Objects live at locations; a variable or an attribute holds [None] or a
    reference. *)
Definition loc := positive.

Inductive value :=
  | VNone
  | VRef (l : loc).

(** The objects the two methods meet: float64 arrays of one and two
    dimensions, and [LOF] instances with the attribute [k] and, once [fit]
    has run, the attribute [X_]. *)
Inductive pyobj (F : Type) :=
  | Ndarray1 (v : vector F)
  | Ndarray2 (m : matrix F)
  | LOF (k : pyval F) (X_ : option value).
Arguments Ndarray1 {F} v.
Arguments Ndarray2 {F} m.
Arguments LOF {F} k X_.

Abbreviation heap F := (gmap loc (pyobj F)).

(** A new object: it gets a location that is not in use. *)
Definition alloc {F : Type} (o : pyobj F) (h : heap F) : loc * heap F :=
  let l := fresh (dom h) in (l, <[l := o]> h).

Definition AttributeError : exn :=
  Exn InPython "AttributeError" "object has no such attribute".

(** ** The detector *)

(** The final values of the local variables of one run of [predict]. *)
Record locals (F : Type) := Locals {
  distances : matrix F;          (* after line 46 *)
  indices : list (list nat);     (* after line 45 *)
  k_dists : vector F;            (* line 48 *)
  num_rows : nat;                (* line 50 *)
  lrd_value : vector F;          (* after the loop of lines 54-58 *)
  lof : vector F;                (* after the loop of lines 61-62 *)
}.
Arguments Locals {F}.
Arguments distances {F}.
Arguments indices {F}.
Arguments k_dists {F}.
Arguments num_rows {F}.
Arguments lrd_value {F}.
Arguments lof {F}.

Section Detector.
Context {F : Type} `{Scalar F}.

(** scikit-learn's [NearestNeighbors(n_neighbors=m).fit(X).kneighbors(X)]:
    the pair [(distances, indices)], or the exception it raises.  It is a
    collaborator of [lof.py], not part of it. *)
Variable kneighbors :
  pyval F → matrix F → result (matrix F * list (list nat)).

(** The exception of line 26: [ValueError("k needs to be a positive
    integer.")]. *)
Definition InvalidParameter : exn :=
  Exn InLof "ValueError" "k needs to be a positive integer.".

(** [LOF(k)], lines 21-22. *)
Definition init (k : pyval F) (h : heap F) : loc * heap F :=
  alloc (LOF k None) h.

(** [self.fit(X, y)], lines 24-28. *)
Definition fit (self : loc) (X y : value) (h : heap F)
    : result loc * heap F :=
  match h !! self with
  | Some (LOF k X_) =>
      if py_le_0 k || negb (isinstance_int k) then
        (Raise InvalidParameter, h)
      else
        (Ok self, <[self := LOF k (Some X)]> h)
  | _ => (Raise AttributeError, h)
  end.

(** Lines 55-58, the body of the first loop. *)
Definition lrd_body (k : pyval F) (X : matrix F) (indices : list (list nat))
    (k_dists : vector F) (lrd_value : vector F) (i : nat)
    : result (vector F) :=
  Xi ← getitem X i;
  idx ← getitem indices i;
  Xidx ← take_indices X idx;
  let temp := broadcast_sub Xi Xidx in
  let temp := np_sqrt (np_sum_axis1 (np_square temp)) in
  idx ← getitem indices i;
  kd ← take_indices k_dists idx;
  let reachability_dists := np_max_vstack2 temp kd in
  Ok (<[i := (py_to_scalar k / py_sum reachability_dists)%S]> lrd_value).

(** Line 62, the body of the second loop. *)
Definition lof_body (k : pyval F) (indices : list (list nat))
    (lrd_value : vector F) (lof : vector F) (i : nat) : result (vector F) :=
  idx ← getitem indices i;
  ls ← take_indices lrd_value idx;
  li ← getitem lrd_value i;
  Ok (<[i := ((np_sum ls / li) / py_to_scalar k)%S]> lof).

(** The value the [i]-th iteration of the first loop stores in
    [lrd_value[i]], and the one the second loop stores in [lof[i]]. *)
Definition lrd_at (k : pyval F) (X : matrix F) (indices : list (list nat))
    (k_dists : vector F) (i : nat) : result F :=
  Xi ← getitem X i;
  idx ← getitem indices i;
  Xidx ← take_indices X idx;
  let temp := broadcast_sub Xi Xidx in
  let temp := np_sqrt (np_sum_axis1 (np_square temp)) in
  idx ← getitem indices i;
  kd ← take_indices k_dists idx;
  let reachability_dists := np_max_vstack2 temp kd in
  Ok (py_to_scalar k / py_sum reachability_dists)%S.

Definition lof_at (k : pyval F) (indices : list (list nat))
    (lrd_value : vector F) (i : nat) : result F :=
  idx ← getitem indices i;
  ls ← take_indices lrd_value idx;
  li ← getitem lrd_value i;
  Ok ((np_sum ls / li) / py_to_scalar k)%S.

(** Lines 43-64 on the value [k] of [self.k] and the contents [X] of the
    argument.  (Line 52 binds [lrd_value] to an array that line 53
    replaces at once.) *)
Definition predict_locals (k : pyval F) (X : matrix F) : result (locals F) :=
  '(distances, indices) ← kneighbors (py_add_1 k) X;
  let indices := columns_from_1 indices in
  let distances := columns_from_1 distances in
  k_dists ← last_column distances;
  let num_rows := length X in
  let lrd_value := np_zeros num_rows in
  lrd_value ← for_in (xrange num_rows)
                 (lrd_body k X indices k_dists) lrd_value;
  let lof := np_zeros num_rows in
  lof ← for_in (xrange num_rows) (lof_body k indices lrd_value) lof;
  Ok (Locals distances indices k_dists num_rows lrd_value lof).

(** [self.predict(X)], lines 30-64, for a detector [self] and a 2-D array
    [X]: the scores are returned in a new array.  ([None]: [self] is no
    detector of the store, or [X] is no 2-D array of the store.  What
    scikit-learn, which line 43 hands [X] to, does with another object is
    not modelled.) *)
Definition predict (self X : loc) (h : heap F)
    : option (result loc * heap F) :=
  match h !! self, h !! X with
  | Some (LOF k _), Some (Ndarray2 a) =>
      Some match predict_locals k a with
           | Ok ls => let '(r, h') := alloc (Ndarray1 (lof ls)) h in (Ok r, h')
           | Raise e => (Raise e, h)
           end
  | _, _ => None
  end.
End Detector.

(** What the caller of [predict] gets: the scores in the array returned,
    or the exception.  ([None]: the location returned holds no 1-D
    array.) *)
Definition returned_scores {F : Type} (out : result loc * heap F)
    : option (result (vector F)) :=
  match out with
  | (Ok r, h) =>
      match h !! r with
      | Some (Ndarray1 v) => Some (Ok v)
      | _ => None
      end
  | (Raise e, _) => Some (Raise e)
  end.

(** ** A reference neighbour search *)

(** What scikit-learn documents for [kneighbors], by exhaustive search:
    for each row of [X] the [n_neighbors] nearest rows of [X], nearest
    first, with their distances; rows at equal distance are kept in index
    order.  It lets the model run on concrete data. *)
Section Reference.
Context {F : Type} `{Scalar F}.

(** The order of the candidates: by distance. *)
Definition by_distance (p q : F * nat) : Prop := (p.1 <=? q.1)%S = true.

(** Insertion into a list of (distance, index) pairs sorted by distance,
    after the entries that are not farther. *)
Fixpoint insert_by_distance (p : F * nat) (l : list (F * nat))
    : list (F * nat) :=
  match l with
  | [] => [p]
  | q :: l' =>
      if (q.1 <=? p.1)%S then q :: insert_by_distance p l' else p :: q :: l'
  end.

Definition sort_by_distance (l : list (F * nat)) : list (F * nat) :=
  foldl (λ acc p, insert_by_distance p acc) [] l.

(** The [m] nearest rows of [X] to the point [x]. *)
Definition nearest (m : nat) (X : matrix F) (x : vector F)
    : list (F * nat) :=
  take m (sort_by_distance (imap (λ j xj, (euclidean x xj, j)) X)).

Definition brute_kneighbors (n_neighbors : pyval F) (X : matrix F)
    : result (matrix F * list (list nat)) :=
  match n_neighbors with
  | PyInt m =>
      if (m <=? 0)%Z then
        Raise (Exn InSklearn "ValueError" "Expected n_neighbors > 0")
      else if (Z.of_nat (length X) <? m)%Z then
        Raise (Exn InSklearn "ValueError"
                 "Expected n_neighbors <= n_samples")
      else
        let found := nearest (Z.to_nat m) X <$> X in
        Ok (fmap (M := list) fst <$> found, fmap (M := list) snd <$> found)
  | PyFloat _ =>
      Raise (Exn InSklearn "TypeError" "n_neighbors does not take float values")
  end.
End Reference.

(** ** The contract of the neighbour search *)

Section Contract.
Context {F : Type} `{Scalar F}.

(** What scikit-learn documents for one row of the result of [kneighbors]
    with [n_neighbors = m], for the query point [x] among the rows of [X]:
    [m] distinct row indices with their exact Euclidean distances, nearest
    first, and no row left out that is nearer than a row returned. *)
Record knn_row (m : nat) (X : matrix F) (x : vector F)
    (d : vector F) (idx : list nat) : Prop := {
  knn_length : length idx = m;
  knn_exact :
    Forall2 (λ dj j, ∃ xj, X !! j = Some xj ∧ dj = euclidean x xj) d idx;
  knn_sorted : StronglySorted (λ a b, (a <=? b)%S = true) d;
  knn_distinct : NoDup idx;
  knn_nearest : ∀ j xj, X !! j = Some xj → j ∉ idx →
    Forall (λ dj, (dj <=? euclidean x xj)%S = true) d;
}.

(** The whole result: one such row for each row of [X]. *)
Definition knn_post (m : nat) (X : matrix F)
    (D : matrix F) (I : list (list nat)) : Prop :=
  Forall3 (knn_row m X) X D I.

(** The search [kneighbors] honours the contract when it is called with
    [n_neighbors = m] on [X]. *)
Definition conforms
    (kneighbors : pyval F → matrix F → result (matrix F * list (list nat)))
    (m : nat) (X : matrix F) : Prop :=
  ∀ D I, kneighbors (PyInt (Z.of_nat m)) X = Ok (D, I) → knn_post m X D I.
End Contract.

(** ** Example data *)

(** Two points on a line, and a store with a detector [LOF(1)] at location
    1 and the array of the two points at location 2. *)
Definition two_points : matrix R := [[0%R]; [3%R]].

Definition two_points_store : heap R :=
  <[2%positive := Ndarray2 two_points]>
    (<[1%positive := LOF (PyInt 1) None]> ∅).

(** Data in float64: a point with an exact duplicate and a third point; a
    single point; three identical points; three points close together
    and one far away.  [store_with k a] has a detector [LOF(k)] at location
    1 and the array [a] at location 2; the last store has a detector
    [LOF(2.5)] only. *)
Section Float64Data.
Import PrimFloat.

Definition duplicate_points : matrix float :=
  [[0%float]; [0%float]; [1%float]].

Definition single_point : matrix float := [[0%float]].


Definition cluster_and_outlier : matrix float :=
  [[0%float; 0%float]; [0%float; 1%float]; [0%float; 2%float];
   [100%float; 100%float]].

Definition store_with (k : pyval float) (a : matrix float) : heap float :=
  <[2%positive := Ndarray2 a]> (<[1%positive := LOF k None]> ∅).

Definition two_and_a_half : float := 2.5%float.


Definition half_integer_store : heap float :=
  <[1%positive := LOF (PyFloat two_and_a_half) None]> ∅.
End Float64Data.

(** Two points at distance 3, in float64, and the same two points moved
    by 1. *)
Section Float64Pairs.
Import PrimFloat.


End Float64Pairs.

(** ** Tactics *)

(** [Forall P l] for a concrete list, entry by entry, by evaluation. *)
Ltac all_by_evaluation :=
  repeat (apply List.Forall_cons; [by vm_compute|]); apply List.Forall_nil.

(** [knn_row] and [knn_post] for a concrete search result in float64, by
    evaluation; the rows left out are found by cases on the index. *)
Ltac knn_row_by_evaluation :=
  split;
  [ reflexivity
  | repeat (apply List.Forall2_cons;
      [eexists; (split; [reflexivity | by vm_compute])|]);
    apply List.Forall2_nil
  | repeat (apply SSorted_cons; [|all_by_evaluation]); apply SSorted_nil
  | by apply (bool_decide_unpack _); vm_compute
  | let j := fresh "j" in
    let xj := fresh "xj" in
    let Hj := fresh "Hj" in
    let Hnotin := fresh "Hnotin" in
    intros j xj Hj Hnotin;
    repeat first
      [ by vm_compute in Hj
      | destruct j as [|j];
        [ first
            [ by exfalso; apply Hnotin; apply (bool_decide_unpack _);
                vm_compute
            | injection Hj as <-; all_by_evaluation ]
        | ] ] ].

Ltac knn_post_by_evaluation :=
  repeat (refine (Forall3_cons _ _ _ _ _ _ _ _ _); [knn_row_by_evaluation|]);
  exact (Forall3_nil _).

(** * The contractive auto-encoder ([anomdet/autoencoder/cA.py]): [fit] *)

(** [ContractiveAutoEncoder.fit] trains the auto-encoder by minibatches.
    The network is a Theano graph: [__init__] and [get_cost_updates] build
    it as symbolic expressions and [theano.function] compiles it.  The
    compiled training function is a parameter here, and the model is the
    Python code of [fit] around it: the keyword arguments, the number of
    minibatches, the slices of the data that the training function is given,
    the two loops and the lines printed.

    The keyword arguments are taken to be ints, and [X] a 2-D array of
    [floatX] numbers; [y] is not used by [fit].  Symbolic expressions are not modelled: the
    attribute [L_jacob], which [get_cost_updates] binds to one, is left
    out. *)
Module cA.

(** How a call ends: it returns, or an exception of some class leaves it
    with a message. *)
Inductive outcome (A : Type) :=
  | Returns (a : A)
  | Raises (class msg : string).
Arguments Returns {A} a.
Arguments Raises {A} class msg.

(** [a / b] on two Python 2 ints: the floor of the quotient. *)
Definition int_div (a b : Z) : outcome Z :=
  if (b =? 0)%Z
  then Raises "ZeroDivisionError" "integer division or modulo by zero"
  else Returns (a / b)%Z.

(** [xrange(n)] for an int [n]: empty when [n <= 0]. *)
Definition xrange (n : Z) : list Z := Z.of_nat <$> seq 0 (Z.to_nat n).

(** [a[start:stop]] on the rows of an array: a negative bound counts from
    the end, and a bound beyond an end is that end. *)
Definition slice {A : Type} (a : list A) (start stop : Z) : list A :=
  let n := Z.of_nat (length a) in
  let bound (i : Z) := if (i <? 0)%Z then Z.max 0 (i + n) else Z.min i n in
  let lo := bound start in
  let hi := bound stop in
  take (Z.to_nat (hi - lo)) (drop (Z.to_nat lo) a).

(** The rows that [givens] puts in place of [self.x] on the call
    [train_da(index)], lines 288-289:
    [train_set_x[index * batch_size: (index + 1) * batch_size]]. *)
Definition minibatch {A : Type} (train_set_x : list A) (batch_size index : Z)
    : list A :=
  slice train_set_x (index * batch_size) ((index + 1) * batch_size).

Section Training.
Context {F : Type}.

(** The values of the shared variables [W], [b] and [b_prime], which a
    training step updates. *)
Variable shared : Type.

(** A compiled training function, applied to the values of the shared
    variables and to the rows given for [self.x]: the mean reconstruction
    error of the rows, or the exception that Theano raises, and the values
    of the shared variables afterwards. *)
Definition compiled : Type := shared → matrix F → outcome F * shared.

(** Lines 284-289 for a detector whose attribute [batch_size] has the
    given value: [get_cost_updates] builds the cost and the updates (the
    Jacobian is reshaped to [batch_size] rows) and [theano.function]
    compiles them; either may raise. *)
Variable theano_function : Z → outcome compiled.

(** The detector and the output stream.  [batch_size] is unbound until the
    first [fit]; [stdout] has one entry for each line printed: the epoch,
    and the costs [c] whose [numpy.mean] the line shows. *)
Record state := State {
  batch_size : option Z;
  params : shared;
  stdout : list (Z * list F);
}.

(** The state after the shared variables were updated, and after a line
    was printed. *)
Definition updated (s : state) (v : shared) : state :=
  State (batch_size s) v (stdout s).

Definition printed (s : state) (epoch : Z) (c : list F) : state :=
  State (batch_size s) (params s) (stdout s ++ [(epoch, c)]).

(** The inner loop, lines 298-299: one training step for each batch
    index, the costs appended to [c]. *)
Fixpoint train_batches (train_da : compiled) (train_set_x : matrix F)
    (batch_size : Z) (batch_indices : list Z) (c : list F) (v : shared)
    : outcome (list F) * shared :=
  match batch_indices with
  | [] => (Returns c, v)
  | batch_index :: rest =>
      match train_da v (minibatch train_set_x batch_size batch_index) with
      | (Returns cost, v') =>
          train_batches train_da train_set_x batch_size rest (c ++ [cost]) v'
      | (Raises class msg, v') => (Raises class msg, v')
      end
  end.

(** The outer loop, lines 296-300: each epoch trains on all minibatches
    and prints one line. *)
Fixpoint train_epochs (train_da : compiled) (train_set_x : matrix F)
    (batch_size n_train_batches : Z) (epochs : list Z) (s : state)
    : outcome () * state :=
  match epochs with
  | [] => (Returns (), s)
  | epoch :: rest =>
      match train_batches train_da train_set_x batch_size
              (xrange n_train_batches) [] (params s) with
      | (Returns c, v') =>
          train_epochs train_da train_set_x batch_size n_train_batches rest
            (printed (updated s v') epoch c)
      | (Raises class msg, v') => (Raises class msg, updated s v')
      end
  end.

(** [self.fit(X, **kwargs)], lines 248-303.  [Returns ()] stands for
    [return self]. *)
Definition fit (X : matrix F) (kwargs : gmap string Z) (s : state)
    : outcome () * state :=
  match kwargs !! "batch_size" with
  | None => (Raises "Exception" "Need a batch size.", s)
  | Some batch_size =>
      let s := State (Some batch_size) (params s) (stdout s) in
      match kwargs !! "training_epochs" with
      | None => (Raises "Exception" "How many training epochs?", s)
      | Some training_epochs =>
          let train_set_x := X in
          match int_div (Z.of_nat (length train_set_x)) batch_size with
          | Raises class msg => (Raises class msg, s)
          | Returns n_train_batches =>
              match theano_function batch_size with
              | Raises class msg => (Raises class msg, s)
              | Returns train_da =>
                  train_epochs train_da train_set_x batch_size
                    n_train_batches (xrange training_epochs) s
              end
          end
      end
  end.
End Training.

Arguments State {F shared} batch_size params stdout.
Arguments batch_size {F shared} s.
Arguments params {F shared} s.
Arguments stdout {F shared} s.
Arguments updated {F shared} s v.
Arguments printed {F shared} s epoch c.
Arguments train_batches {F shared} train_da train_set_x batch_size
  batch_indices c v.
Arguments train_epochs {F shared} train_da train_set_x batch_size
  n_train_batches epochs s.
Arguments fit {F shared} theano_function X kwargs s.

(** A training function for trying [fit] out: the shared state is the list
    of the minibatches seen so far, and the cost of a minibatch is the
    number of its rows. *)
Definition recording_function (batch_size : Z)
    : outcome (@compiled Z (list (matrix Z))) :=
  Returns (λ seen rows, (Returns (Z.of_nat (length rows)), seen ++ [rows])).

(** Five rows of one column, and keyword arguments for two epochs with
    minibatches of two rows. *)
Definition five_rows : matrix Z := [[10]; [11]; [12]; [13]; [14]]%Z.

Definition two_by_two : gmap string Z :=
  {[ "batch_size" := 2%Z; "training_epochs" := 2%Z ]}.

(** A detector that was not trained yet, and nothing printed. *)
Definition untrained : @state Z (list (matrix Z)) :=
  State None [] [].
End cA.

(** * Properties *)

(** ** Exceptions and loops *)

Lemma bind_Ok {A B : Type} (m : result A) (f : A → result B) (b : B) :
  m ≫= f = Ok b ↔ ∃ a, m = Ok a ∧ f a = Ok b.
Proof.
  destruct m as [a|e]; simpl; split.
  - intros Hf. by exists a.
  - by intros (a' & [= <-] & Hf).
  - discriminate.
  - by intros (a' & [=] & _).
Qed.


Lemma getitem_Ok {A : Type} (a : list A) (i : nat) (x : A) :
  getitem a i = Ok x ↔ a !! i = Some x.
Proof.
  unfold getitem. destruct (a !! i); split; intros [=]; by subst.
Qed.


Lemma for_each_Ok {A B : Type} (f : A → result B) (xs : list A) (ys : list B) :
  for_each f xs = Ok ys ↔ Forall2 (λ x y, f x = Ok y) xs ys.
Proof.
  revert ys. induction xs as [|x xs IH]; intros ys; simpl.
  - split; [by intros [= <-] | by intros ->%Forall2_nil_inv_l].
  - rewrite bind_Ok. split.
    + intros (y & Hy & (ys' & Hys & [= <-])%bind_Ok).
      constructor; [done | by apply IH].
    + intros (y & ys' & Hy & Hys & ->)%Forall2_cons_inv_l.
      exists y. split; [done|]. apply bind_Ok. exists ys'.
      split; [by apply IH | done].
Qed.

Lemma for_each_total {A B : Type} (f : A → result B) (xs : list A) :
  Forall (λ x, ∃ y, f x = Ok y) xs → ∃ ys, for_each f xs = Ok ys.
Proof.
  induction 1 as [|x xs [y Hy] _ [ys Hys]]; simpl; [by eexists|].
  rewrite Hy, Hys. by eexists.
Qed.



(** The result of a comprehension over [xrange n], entry by entry. *)
Lemma for_each_xrange {B : Type} (f : nat → result B) (n : nat) (ys : list B) :
  for_each f (xrange n) = Ok ys ↔
  length ys = n ∧ ∀ i, i < n → ∃ y, ys !! i = Some y ∧ f i = Ok y.
Proof.
  rewrite for_each_Ok. unfold xrange. split.
  - intros Hall. pose proof (Forall2_length _ _ _ Hall) as Hlen.
    rewrite length_seq in Hlen. split; [done|]. intros i Hi.
    destruct (lookup_lt_is_Some_2 ys i) as [y Hy]; [lia|].
    exists y. split; [done|].
    eapply (Forall2_lookup_lr _ _ _ i i y) in Hall; [done | | done].
    by rewrite lookup_seq_lt.
  - intros [Hlen Hall]. apply Forall2_same_length_lookup.
    split; [by rewrite length_seq|].
    intros i j y [-> Hi]%lookup_seq Hy. simpl.
    destruct (Hall i Hi) as (y' & Hy' & ?). congruence.
Qed.

(** A loop over [xrange n] whose [i]-th iteration computes a value from
    [i] alone and stores it at index [i] of an array of length [n] leaves
    the array of these values. *)
Lemma for_in_store_general {B : Type} (f : nat → result B)
    (body : list B → nat → result (list B)) (n a : nat) (done rest : list B) :
  (∀ s i, body s i = v ← f i; Ok (<[i := v]> s)) →
  length done = a → length rest = n →
  for_in (seq a n) body (done ++ rest) =
    vs ← for_each f (seq a n); Ok (done ++ vs).
Proof.
  intros Hbody. revert a done rest.
  induction n as [|n IH]; intros a done rest Ha Hn; simpl.
  - destruct rest; [done | discriminate].
  - destruct rest as [|r rest]; [discriminate|].
    rewrite Hbody. destruct (f a) as [v|e]; simpl; [|done].
    replace (<[a := v]> (done ++ r :: rest)) with ((done ++ [v]) ++ rest).
    + rewrite (IH (S a) (done ++ [v]) rest).
      * destruct (for_each f (seq (S a) n)); simpl; [|done].
        by rewrite <-app_assoc.
      * rewrite length_app. simpl. lia.
      * simpl in Hn. lia.
    + rewrite <-app_assoc, insert_app_r_alt by lia.
      by replace (a - length done) with 0 by lia.
Qed.

Lemma for_in_store {B : Type} (f : nat → result B)
    (body : list B → nat → result (list B)) (n : nat) (init : list B) :
  (∀ s i, body s i = v ← f i; Ok (<[i := v]> s)) →
  length init = n →
  for_in (xrange n) body init = for_each f (xrange n).
Proof.
  intros Hbody Hlen. unfold xrange.
  change init with ([] ++ init) at 1.
  rewrite (for_in_store_general f body n 0 [] init Hbody eq_refl Hlen).
  by destruct (for_each f (seq 0 n)).
Qed.

(** ** The two loops, entry by entry *)

Section Loops.
Context {F : Type} `{Scalar F}.
Implicit Types (X D : matrix F) (I : list (list nat)) (k : pyval F).

Lemma take_indices_Ok {A : Type} (a : list A) (idx : list nat) (ys : list A) :
  take_indices a idx = Ok ys ↔ Forall2 (λ j y, a !! j = Some y) idx ys.
Proof.
  unfold take_indices. rewrite for_each_Ok.
  split; intros Hall; eapply Forall2_impl; [done | | done |];
    intros j y; by rewrite getitem_Ok.
Qed.


Lemma take_indices_total {A : Type} (a : list A) (idx : list nat) :
  Forall (λ j, j < length a) idx → ∃ ys, take_indices a idx = Ok ys.
Proof.
  intros Hidx. apply for_each_total. eapply Forall_impl; [done|].
  intros j [y Hy]%lookup_lt_is_Some_2. exists y. by apply getitem_Ok.
Qed.

Lemma last_column_Ok {A : Type} (a : list (list A)) (ys : list A) :
  last_column a = Ok ys ↔ Forall2 (λ row y, last row = Some y) a ys.
Proof.
  unfold last_column. rewrite for_each_Ok.
  split; intros Hall; eapply Forall2_impl; [done | | done |];
    intros row y Hy; simpl in *; destruct (last row); by simplify_eq.
Qed.

(** Lines 55-56 compute the distances from [X[i]] to the selected rows. *)
Lemma temp_euclidean (x : vector F) (rows : matrix F) :
  np_sqrt (np_sum_axis1 (np_square (broadcast_sub x rows)))
  = euclidean x <$> rows.
Proof.
  unfold np_sqrt, np_sum_axis1, np_square, broadcast_sub.
  rewrite <-!list_fmap_compose. by apply list_fmap_ext.
Qed.

Lemma lrd_body_store k X I (kd s : vector F) (i : nat) :
  lrd_body k X I kd s i = v ← lrd_at k X I kd i; Ok (<[i := v]> s).
Proof.
  unfold lrd_body, lrd_at.
  destruct (getitem X i) as [xi|]; simpl; [|done].
  destruct (getitem I i) as [idx|]; simpl; [|done].
  destruct (take_indices X idx); simpl; [|done].
  by destruct (take_indices kd idx).
Qed.

Lemma lof_body_store k I (lrd s : vector F) (i : nat) :
  lof_body k I lrd s i = v ← lof_at k I lrd i; Ok (<[i := v]> s).
Proof.
  unfold lof_body, lof_at.
  destruct (getitem I i) as [idx|]; simpl; [|done].
  destruct (take_indices lrd idx); simpl; [|done].
  by destruct (getitem lrd i).
Qed.

Lemma reach_dists_zip X (kd : vector F) (x : vector F) (idx : list nat)
    (rows : matrix F) (kds : vector F) :
  Forall2 (λ j xj, X !! j = Some xj) idx rows →
  Forall2 (λ j d, kd !! j = Some d) idx kds →
  Forall2 (λ j r, reach_dist X kd x j = Some r) idx
    (np_max_vstack2 (euclidean x <$> rows) kds).
Proof.
  intros Hrows. revert kds.
  induction Hrows as [|j xj idx rows Hj _ IH]; intros kds Hkds.
  - apply Forall2_nil_inv_l in Hkds as ->. constructor.
  - apply Forall2_cons_inv_l in Hkds as (d & kds' & Hd & Hkds & ->).
    simpl. constructor; [|by apply IH].
    unfold reach_dist. by rewrite Hj, Hd.
Qed.

(** What one iteration of the first loop stores. *)
Lemma lrd_at_Ok k X I (kd : vector F) (i : nat) (v : F) :
  lrd_at k X I kd i = Ok v →
  ∃ x idx rs, X !! i = Some x ∧ I !! i = Some idx ∧
    Forall2 (λ j r, reach_dist X kd x j = Some r) idx rs ∧
    v = (py_to_scalar k / py_sum rs)%S.
Proof.
  unfold lrd_at.
  intros (x & Hx%getitem_Ok & (idx & Hidx & Hrest)%bind_Ok)%bind_Ok.
  apply bind_Ok in Hrest as (rows & Hrows%take_indices_Ok & Hrest).
  simpl in Hrest. rewrite Hidx in Hrest. simpl in Hrest.
  apply bind_Ok in Hrest as (kds & Hkds%take_indices_Ok & [= <-]).
  apply getitem_Ok in Hidx. rewrite temp_euclidean.
  exists x, idx, (np_max_vstack2 (euclidean x <$> rows) kds).
  split_and!; [done | done | by apply reach_dists_zip | done].
Qed.


Variable kneighbors : pyval F → matrix F → result (matrix F * list (list nat)).

(** A run of lines 43-64 that returns, stage by stage. *)
Lemma predict_locals_Ok k X (tr : locals F) :
  predict_locals kneighbors k X = Ok tr ↔
  ∃ D I, kneighbors (py_add_1 k) X = Ok (D, I) ∧
    indices tr = columns_from_1 I ∧
    distances tr = columns_from_1 D ∧
    last_column (distances tr) = Ok (k_dists tr) ∧
    num_rows tr = length X ∧
    for_each (lrd_at k X (indices tr) (k_dists tr)) (xrange (length X))
      = Ok (lrd_value tr) ∧
    for_each (lof_at k (indices tr) (lrd_value tr)) (xrange (length X))
      = Ok (lof tr).
Proof.
  unfold predict_locals. split.
  - intros ([D I] & Hnn & (kd & Hkd & Hrest)%bind_Ok)%bind_Ok.
    rewrite (for_in_store (lrd_at k X (columns_from_1 I) kd)) in Hrest
      by (by apply lrd_body_store || apply length_replicate).
    apply bind_Ok in Hrest as (lrd & Hlrd & Hrest).
    rewrite (for_in_store (lof_at k (columns_from_1 I) lrd)) in Hrest
      by (by apply lof_body_store || apply length_replicate).
    apply bind_Ok in Hrest as (sc & Hsc & [= <-]). simpl.
    by exists D, I.
  - intros (D & I & Hnn & HI & HD & Hkd & Hn & Hlrd & Hlof).
    destruct tr as [d idx kd n lrd sc]; simpl in *; subst.
    rewrite Hnn. simpl. rewrite Hkd. simpl.
    rewrite (for_in_store (lrd_at k X (columns_from_1 I) kd))
      by (by apply lrd_body_store || apply length_replicate).
    rewrite Hlrd. simpl.
    rewrite (for_in_store (lof_at k (columns_from_1 I) lrd))
      by (by apply lof_body_store || apply length_replicate).
    by rewrite Hlof.
Qed.

End Loops.

(** ** Exact arithmetic *)

Lemma Rleb_le (a b : R) : Rleb a b = true ↔ (a <= b)%R.
Proof. unfold Rleb. by destruct (Rle_dec a b). Qed.

#[export] Instance real_exact : ExactScalar R.
Proof.
  split; simpl.
  - intros a b c. unfold Rdiv. rewrite Rinv_mult. ring.
  - intros a. ring.
  - ring.
  - ring.
  - apply sqrt_0.
  - intros a. apply Rleb_le, sqrt_pos.
  - intros a b. rewrite !Rleb_le. lra.
  - intros a b c. rewrite !Rleb_le. lra.
  - intros a b. rewrite !Rleb_le. lra.
Qed.

#[export] Instance real_ordered : OrderedScalar R.
Proof. split. intros a b Hab%Rleb_le. by apply Rmax_right. Qed.

(** In IEEE arithmetic: the comparison of two floats read in the other
    direction, and of a float with itself. *)
Lemma SFcompare_antisym (x y : SpecFloat.spec_float) :
  SpecFloat.SFcompare y x = CompOpp <$> SpecFloat.SFcompare x y.
Proof.
  destruct x as [sx|sx| |sx mx ex], y as [sy|sy| |sy my ey]; simpl;
    try done; try (by destruct sx); try (by destruct sy);
    try (by destruct sx, sy).
  change (Pos.compare_cont Eq my mx) with (my ?= mx)%positive.
  change (Pos.compare_cont Eq mx my) with (mx ?= my)%positive.
  rewrite (Z.compare_antisym ex ey), (Pos.compare_antisym mx my).
  destruct sx, sy; simpl; try done;
    destruct (ex ?= ey)%Z; simpl; try done;
    by destruct (mx ?= my)%positive.
Qed.

Lemma SFcompare_refl (x : SpecFloat.spec_float) :
  SpecFloat.SFcompare x x
  = match x with SpecFloat.S754_nan => None | _ => Some Eq end.
Proof.
  destruct x as [s|s| |s m e]; simpl; try done; try (by destruct s).
  change (Pos.compare_cont Eq m m) with (m ?= m)%positive.
  destruct s; by rewrite Z.compare_refl, Pos.compare_refl.
Qed.

Lemma float_maximum_r (a b : PrimFloat.float) :
  PrimFloat.leb a b = true → float_maximum a b = b.
Proof.
  unfold float_maximum, PrimFloat.is_nan.
  rewrite FloatAxioms.leb_spec, FloatAxioms.eqb_spec, FloatAxioms.ltb_spec.
  unfold SpecFloat.SFleb, SpecFloat.SFeqb, SpecFloat.SFltb.
  rewrite (SFcompare_antisym (FloatOps.Prim2SF a) (FloatOps.Prim2SF b)),
    SFcompare_refl.
  destruct (FloatOps.Prim2SF a) eqn:Ha,
    (SpecFloat.SFcompare _ _) as [[]|] eqn:Hc; simpl; done.
Qed.

#[export] Instance float64_ordered : OrderedScalar PrimFloat.float.
Proof. split. apply float_maximum_r. Qed.

Section Exact.
Context {F : Type} `{ExactScalar F}.

Lemma s_leb_refl (a : F) : (a <=? a)%S = true.
Proof. by destruct (s_leb_total a a). Qed.

(** A point is at distance 0 from itself. *)
Lemma np_sum_zeros (n : nat) : np_sum (replicate n (s_zero : F)) = s_zero.
Proof.
  unfold np_sum. induction n as [|n IH]; simpl; [done|].
  by rewrite s_add_zero.
Qed.

Lemma euclidean_self (x : vector F) : euclidean x x = s_zero.
Proof.
  unfold euclidean.
  replace ((λ v : F, (v * v)%S) <$> zip_with s_sub x x)
    with (replicate (length x) (s_zero : F)).
  - by rewrite np_sum_zeros, s_sqrt_zero.
  - induction x as [|a x IH]; simpl; [done|].
    by rewrite s_sub_diag, s_mul_zero, IH.
Qed.

Lemma euclidean_nonneg (x y : vector F) : (s_zero <=? euclidean x y)%S = true.
Proof. apply s_sqrt_nonneg. Qed.

End Exact.

Section Ordered.
Context {F : Type} `{OrderedScalar F}.

(** The largest entry of a sorted array is its last one. *)
Lemma foldl_maximum_sorted (a : F) (v : vector F) :
  StronglySorted (λ a b, (a <=? b)%S = true) (a :: v) →
  Some (foldl s_maximum a v) = last (a :: v).
Proof.
  revert a. induction v as [|b v IH]; intros a Hs; [done|].
  apply StronglySorted_inv in Hs as [Hs Hab]. simpl foldl.
  rewrite s_maximum_r by (by apply Forall_cons_1 in Hab as [? _]).
  by rewrite IH.
Qed.

Lemma np_max_sorted (v : vector F) :
  StronglySorted (λ a b, (a <=? b)%S = true) v → np_max v = last v.
Proof. destruct v as [|a v]; [done|]. apply foldl_maximum_sorted. Qed.
End Ordered.

(** ** The reference search honours the contract *)

Lemma Forall3_fmap_diag {A B C : Type} (P : A → B → C → Prop)
    (f : A → B) (g : A → C) (l : list A) :
  Forall (λ x, P x (f x) (g x)) l → Forall3 P l (f <$> l) (g <$> l).
Proof. induction 1; simpl; by constructor. Qed.

Section ReferenceConforms.
Context {F : Type} `{ExactScalar F}.

Lemma insert_by_distance_perm (p : F * nat) (l : list (F * nat)) :
  insert_by_distance p l ≡ₚ p :: l.
Proof.
  induction l as [|q l IH]; simpl; [done|].
  destruct (q.1 <=? p.1)%S; [|done].
  by rewrite IH, Permutation_swap.
Qed.

Lemma insert_by_distance_sorted (p : F * nat) (l : list (F * nat)) :
  StronglySorted by_distance l →
  StronglySorted by_distance (insert_by_distance p l).
Proof.
  induction 1 as [|q l Hl IH Hq]; simpl; [by repeat constructor|].
  destruct (q.1 <=? p.1)%S eqn:Hqp.
  - constructor; [done|].
    rewrite insert_by_distance_perm. by constructor.
  - assert (by_distance p q) as Hpq.
    { by destruct (s_leb_total p.1 q.1) as [?|Hc]; [|rewrite Hc in Hqp]. }
    constructor; [by constructor|]. constructor; [done|].
    eapply Forall_impl; [done|]. intros r Hr.
    by eapply s_leb_trans.
Qed.

Lemma sort_by_distance_general (l acc : list (F * nat)) :
  StronglySorted by_distance acc →
  foldl (λ acc p, insert_by_distance p acc) acc l ≡ₚ acc ++ l ∧
  StronglySorted by_distance
    (foldl (λ acc p, insert_by_distance p acc) acc l).
Proof.
  revert acc. induction l as [|p l IH]; intros acc Hacc; simpl.
  - by rewrite app_nil_r.
  - destruct (IH (insert_by_distance p acc)) as [Hperm Hsorted];
      [by apply insert_by_distance_sorted|].
    split; [|done].
    rewrite Hperm, insert_by_distance_perm. apply Permutation_middle.
Qed.

Lemma sort_by_distance_perm (l : list (F * nat)) : sort_by_distance l ≡ₚ l.
Proof. apply (sort_by_distance_general l []). constructor. Qed.

Lemma sort_by_distance_sorted (l : list (F * nat)) :
  StronglySorted by_distance (sort_by_distance l).
Proof. apply (sort_by_distance_general l []). constructor. Qed.

(** The candidates for the point [x]: every row with its distance. *)
Lemma candidates_snd (X : matrix F) (x : vector F) :
  (imap (λ j xj, (euclidean x xj, j)) X).*2 = seq 0 (length X).
Proof.
  apply list_eq. intros i.
  rewrite list_lookup_fmap, list_lookup_imap.
  destruct (X !! i) as [xi|] eqn:Hi; simpl.
  - by rewrite lookup_seq_lt by (by eapply lookup_lt_Some).
  - by rewrite lookup_seq_ge by (by apply lookup_ge_None).
Qed.

Lemma candidates_elem_of (X : matrix F) (x : vector F) (d : F) (j : nat) :
  (d, j) ∈ imap (λ j xj, (euclidean x xj, j)) X ↔
  ∃ xj, X !! j = Some xj ∧ d = euclidean x xj.
Proof.
  rewrite list_elem_of_lookup. split.
  - intros (i & Hi). rewrite list_lookup_imap in Hi.
    destruct (X !! i) as [xi|] eqn:HXi; simplify_eq/=. by exists xi.
  - intros (xj & Hj & ->). exists j. by rewrite list_lookup_imap, Hj.
Qed.

Lemma nearest_row (m : nat) (X : matrix F) (x : vector F) :
  m ≤ length X →
  knn_row m X x (nearest m X x).*1 (nearest m X x).*2.
Proof.
  intros Hm. unfold nearest.
  set (c := imap (λ j xj, (euclidean x xj, j)) X).
  pose proof (sort_by_distance_perm c) as Hperm.
  pose proof (sort_by_distance_sorted c) as Hsorted.
  assert (length (sort_by_distance c) = length X) as Hlen.
  { by rewrite Hperm; unfold c; rewrite length_imap. }
  rewrite <-(take_drop m (sort_by_distance c)) in Hsorted.
  split.
  - by rewrite length_fmap, length_take_le by lia.
  - apply Forall2_fmap, Forall_Forall2_diag, Forall_take, Forall_forall.
    intros [d j]. rewrite Hperm. apply candidates_elem_of.
  - eapply StronglySorted_fmap; [|by eapply StronglySorted_app_1_l].
    by intros p q.
  - rewrite fmap_take. eapply sublist_NoDup; [|apply sublist_take].
    rewrite Hperm. unfold c. rewrite candidates_snd. apply NoDup_seq.
  - intros j xj Hj Hnotin. apply Forall_fmap, Forall_forall.
    intros p Hp. simpl.
    assert ((euclidean x xj, j) ∈ sort_by_distance c) as Hin.
    { rewrite Hperm. apply candidates_elem_of. by exists xj. }
    rewrite <-(take_drop m (sort_by_distance c)) in Hin.
    apply elem_of_app in Hin as [Hin|Hin].
    + destruct Hnotin. apply list_elem_of_fmap.
      by exists (euclidean x xj, j).
    + by apply (StronglySorted_app_1_elem_of _ _ _ p (euclidean x xj, j)
                  Hsorted).
Qed.

Lemma brute_kneighbors_Ok (n : pyval F) (X D : matrix F)
    (I : list (list nat)) :
  brute_kneighbors n X = Ok (D, I) ↔
  ∃ m, n = PyInt (Z.of_nat m) ∧ 0 < m ≤ length X ∧
    D = (λ x, (nearest m X x).*1) <$> X ∧
    I = (λ x, (nearest m X x).*2) <$> X.
Proof.
  unfold brute_kneighbors. split.
  - destruct n as [z|f]; [|done].
    destruct (Z.leb_spec z 0); [done|].
    destruct (Z.ltb_spec (Z.of_nat (length X)) z); [done|].
    intros [= <- <-]. exists (Z.to_nat z).
    rewrite <-!list_fmap_compose.
    split_and!; [f_equal; lia | lia | lia | done | done].
  - intros (m & -> & Hm & -> & ->).
    destruct (Z.leb_spec (Z.of_nat m) 0); [lia|].
    destruct (Z.ltb_spec (Z.of_nat (length X)) (Z.of_nat m)); [lia|].
    by rewrite Nat2Z.id, <-!list_fmap_compose.
Qed.

Lemma brute_kneighbors_conforms (m : nat) (X : matrix F) :
  conforms brute_kneighbors m X.
Proof.
  intros D I (m' & [= Hm'%Nat2Z.inj] & Hm & -> & ->)%brute_kneighbors_Ok.
  subst m'. apply Forall3_fmap_diag, Forall_forall.
  intros x _. apply nearest_row. lia.
Qed.
End ReferenceConforms.

(** ** Calls of [predict] *)

Section Calls.
Context {F : Type} `{Scalar F}.
Variable kneighbors : pyval F → matrix F → result (matrix F * list (list nat)).
Implicit Types (X D : matrix F) (I : list (list nat)) (h : heap F).

Lemma py_add_1_int (n : nat) :
  py_add_1 (PyInt (Z.of_nat n) : pyval F) = PyInt (Z.of_nat (S n)).
Proof. simpl. f_equal. lia. Qed.

Lemma knn_post_row (m : nat) X D I (i : nat) (x : vector F) :
  knn_post m X D I → X !! i = Some x →
  ∃ d idx, D !! i = Some d ∧ I !! i = Some idx ∧ knn_row m X x d idx.
Proof.
  intros Hpost Hx.
  destruct (Forall3_lookup_l _ _ _ _ _ _ Hpost Hx) as (d & idx & ? & ? & ?).
  by exists d, idx.
Qed.

Lemma knn_row_in_range (m : nat) X (x d : vector F) (idx : list nat) :
  knn_row m X x d idx → length d = m ∧ Forall (λ j, j < length X) idx.
Proof.
  intros [Hlen Hexact _ _ _]. split.
  - by rewrite (Forall2_length _ _ _ Hexact).
  - eapply Forall2_Forall_r; [done|]. apply Forall_forall.
    intros dj _ j (xj & Hj & _). by eapply lookup_lt_Some.
Qed.

Lemma columns_from_1_lookup {A : Type} (a : list (list A)) (i : nat)
    (row : list A) :
  a !! i = Some row → columns_from_1 a !! i = Some (drop 1 row).
Proof. intros Hrow. unfold columns_from_1. by rewrite list_lookup_fmap, Hrow. Qed.

(** A call on a detector with a positive int [k] and a 2-D array [a]
    returns a new array exactly when lines 43-64 run through. *)
Lemma predict_Ok h (self X : loc) (k : pyval F) (X_ : option value)
    (a : matrix F) (r : loc) (h' : heap F) :
  h !! self = Some (LOF k X_) → h !! X = Some (Ndarray2 a) →
  predict kneighbors self X h = Some (Ok r, h') ↔
  ∃ tr, predict_locals kneighbors k a = Ok tr ∧
    r = fresh (dom h) ∧ h' = <[r := Ndarray1 (lof tr)]> h.
Proof.
  intros Hself HX. unfold predict. rewrite Hself, HX.
  destruct (predict_locals kneighbors k a) as [tr|e]; simpl.
  - split.
    + intros [= <- <-]. by exists tr.
    + by intros (tr' & [= <-] & -> & ->).
  - split; [done | by intros (tr' & [=] & _)].
Qed.

Lemma predict_Raise h (self X : loc) (k : pyval F) (X_ : option value)
    (a : matrix F) (e : exn) (h' : heap F) :
  h !! self = Some (LOF k X_) → h !! X = Some (Ndarray2 a) →
  predict kneighbors self X h = Some (Raise e, h') ↔
  predict_locals kneighbors k a = Raise e ∧ h' = h.
Proof.
  intros Hself HX. unfold predict. rewrite Hself, HX.
  destruct (predict_locals kneighbors k a) as [tr|e']; simpl.
  - split; [done | by intros [[=] _]].
  - split; [by intros [= <- <-] | by intros [[= <-] ->]].
Qed.

(** The shape of the search result after the first column is dropped. *)
Lemma neighbour_rows (kn : nat) X D I (i : nat) (x : vector F) :
  knn_post (S kn) X D I → X !! i = Some x →
  ∃ d idx, columns_from_1 D !! i = Some d ∧
    columns_from_1 I !! i = Some idx ∧
    length d = kn ∧ length idx = kn ∧
    Forall (λ j, j < length X) idx.
Proof.
  intros Hpost Hx.
  destruct (knn_post_row _ _ _ _ _ _ Hpost Hx) as (d & idx & Hd & Hidx & Hrow).
  destruct (knn_row_in_range _ _ _ _ _ Hrow) as [Hlen Hrange].
  exists (drop 1 d), (drop 1 idx).
  split_and!; try by apply columns_from_1_lookup.
  - rewrite length_drop. lia.
  - rewrite length_drop, (knn_length _ _ _ _ _ Hrow). lia.
  - by apply Forall_drop.
Qed.

(** Given a search result within the contract, lines 43-64 run through:
    nothing after the search can fail. *)
Lemma predict_locals_total (kn : nat) X D I :
  1 ≤ kn →
  kneighbors (PyInt (Z.of_nat (S kn))) X = Ok (D, I) →
  knn_post (S kn) X D I →
  ∃ tr, predict_locals kneighbors (PyInt (Z.of_nat kn)) X = Ok tr.
Proof.
  intros Hkn Hnn Hpost.
  pose proof (Forall3_length_lm _ _ _ _ Hpost) as HlenD.
  pose proof (Forall3_length_lr _ _ _ _ Hpost) as HlenI.
  destruct (for_each_total
    (λ row : vector F, match last row with
                       | Some x => Ok x
                       | None => Raise IndexError
                       end) (columns_from_1 D)) as [kd Hkd].
  { apply Forall_lookup. intros i row Hrow.
    destruct (lookup_lt_is_Some_2 X i) as [x Hx].
    { apply lookup_lt_Some in Hrow.
      unfold columns_from_1 in Hrow. rewrite length_fmap in Hrow. lia. }
    destruct (neighbour_rows _ _ _ _ _ _ Hpost Hx)
      as (d & idx & Hd & _ & Hlen & _).
    assert (row = d) as -> by congruence.
    rewrite last_lookup.
    destruct (lookup_lt_is_Some_2 d (pred (length d))) as [y ->]; [lia|].
    by exists y. }
  assert (length kd = length X) as Hlenkd.
  { apply for_each_Ok, Forall2_length in Hkd.
    unfold columns_from_1 in Hkd. rewrite length_fmap in Hkd. lia. }
  destruct (for_each_total
    (lrd_at (PyInt (Z.of_nat kn)) X (columns_from_1 I) kd)
    (xrange (length X))) as [lrd Hlrd].
  { apply Forall_forall. intros i [_ Hi]%elem_of_seq.
    destruct (lookup_lt_is_Some_2 X i) as [x Hx]; [lia|].
    destruct (neighbour_rows _ _ _ _ _ _ Hpost Hx)
      as (d & idx & _ & Hidx & _ & _ & Hrange).
    destruct (take_indices_total X idx Hrange) as [rows Hrows].
    destruct (take_indices_total kd idx) as [kds Hkds]; [by rewrite Hlenkd|].
    unfold lrd_at, getitem. rewrite Hx, Hidx. simpl.
    rewrite Hrows. simpl. rewrite Hkds. simpl. by eexists. }
  assert (length lrd = length X) as Hlenlrd.
  { apply for_each_Ok, Forall2_length in Hlrd.
    unfold xrange in Hlrd. rewrite length_seq in Hlrd. lia. }
  destruct (for_each_total
    (lof_at (PyInt (Z.of_nat kn)) (columns_from_1 I) lrd)
    (xrange (length X))) as [sc Hsc].
  { apply Forall_forall. intros i [_ Hi]%elem_of_seq.
    destruct (lookup_lt_is_Some_2 X i) as [x Hx]; [lia|].
    destruct (neighbour_rows _ _ _ _ _ _ Hpost Hx)
      as (d & idx & _ & Hidx & _ & _ & Hrange).
    destruct (take_indices_total lrd idx) as [ls Hls]; [by rewrite Hlenlrd|].
    destruct (lookup_lt_is_Some_2 lrd i) as [li Hli]; [lia|].
    unfold lof_at, getitem. rewrite Hidx. simpl.
    rewrite Hls. simpl. rewrite Hli. simpl. by eexists. }
  exists (Locals (columns_from_1 D) (columns_from_1 I) kd (length X) lrd sc).
  apply predict_locals_Ok. exists D, I. by rewrite py_add_1_int.
Qed.

(** The same for a call: it returns the scores in a new array. *)
Lemma predict_total (kn : nat) h (self X : loc) (X_ : option value)
    (a D : matrix F) I :
  h !! self = Some (LOF (PyInt (Z.of_nat kn)) X_) →
  h !! X = Some (Ndarray2 a) →
  1 ≤ kn →
  kneighbors (PyInt (Z.of_nat (S kn))) a = Ok (D, I) →
  knn_post (S kn) a D I →
  ∃ tr, predict_locals kneighbors (PyInt (Z.of_nat kn)) a = Ok tr ∧
    predict kneighbors self X h
    = Some (Ok (fresh (dom h)), <[fresh (dom h) := Ndarray1 (lof tr)]> h).
Proof.
  intros Hself HX Hkn Hnn Hpost.
  destruct (predict_locals_total kn a D I Hkn Hnn Hpost) as [tr Htr].
  exists tr. split; [done|].
  apply (predict_Ok _ _ _ _ _ _ _ _ Hself HX). by exists tr.
Qed.

(** The search result of a run that returned. *)
Lemma predict_locals_search (kn : nat) X (tr : locals F) :
  conforms kneighbors (S kn) X →
  predict_locals kneighbors (PyInt (Z.of_nat kn)) X = Ok tr →
  ∃ D I, kneighbors (PyInt (Z.of_nat (S kn))) X = Ok (D, I) ∧
    knn_post (S kn) X D I ∧
    indices tr = columns_from_1 I ∧ distances tr = columns_from_1 D.
Proof.
  intros Hconf (D & I & Hnn & HI & HD & _)%predict_locals_Ok.
  rewrite py_add_1_int in Hnn. exists D, I. split_and!; try done.
  by apply Hconf.
Qed.
End Calls.

(** ** A run on the example data *)

Lemma two_points_self :
  two_points_store !! 1%positive = Some (LOF (PyInt (Z.of_nat 1)) None).
Proof. done. Qed.

Lemma two_points_X :
  two_points_store !! 2%positive = Some (Ndarray2 two_points).
Proof. done. Qed.

Lemma two_points_search :
  ∃ D I, brute_kneighbors (PyInt (Z.of_nat 2)) two_points = Ok (D, I).
Proof.
  eexists _, _. apply brute_kneighbors_Ok. exists 2.
  split_and!; [done | lia | simpl; lia | done | done].
Qed.

Lemma two_points_run :
  ∃ tr, predict_locals brute_kneighbors (PyInt (Z.of_nat 1)) two_points
        = Ok tr ∧
    predict brute_kneighbors 1%positive 2%positive two_points_store
    = Some (Ok (fresh (dom two_points_store)),
       <[fresh (dom two_points_store) := Ndarray1 (lof tr)]> two_points_store).
Proof.
  destruct two_points_search as (D & I & Hnn).
  eapply predict_total;
    [apply two_points_self | apply two_points_X | lia | exact Hnn |].
  by apply brute_kneighbors_conforms.
Qed.

(** The same run, evaluated: over the reals, the two points 0 and 3 with
    [k = 1] are each other's neighbour at distance 3, both densities are
    1/3 and both scores are 1. *)
Lemma euclidean_1d (x y : R) : euclidean [x] [y] = Rabs (x - y).
Proof.
  unfold euclidean, np_sum. simpl.
  replace (0 + (x - y) * (x - y))%R with (Rsqr (x - y))
    by (unfold Rsqr; ring).
  apply sqrt_Rsqr_abs.
Qed.

Lemma Rleb_gt (a b : R) : (b < a)%R → Rleb a b = false.
Proof. intros Hlt. unfold Rleb. destruct (Rle_dec a b); [lra | done]. Qed.

Lemma two_points_distances :
  euclidean [0%R] [0%R] = 0%R ∧ euclidean [0%R] [3%R] = 3%R ∧
  euclidean [3%R] [0%R] = 3%R ∧ euclidean [3%R] [3%R] = 0%R.
Proof.
  rewrite !euclidean_1d, !Rminus_diag, Rabs_R0.
  split_and!; [done | rewrite Rabs_left; lra | rewrite Rabs_right; lra | done].
Qed.

Lemma two_points_search_result :
  brute_kneighbors (PyInt 2) two_points
  = Ok ([[0; 3]; [0; 3]]%R, [[0; 1]; [1; 0]]).
Proof.
  destruct two_points_distances as (H00 & H03 & H30 & H33).
  unfold brute_kneighbors, two_points, nearest, sort_by_distance.
  cbn [length fmap list_fmap imap foldl insert_by_distance fst snd compose].
  rewrite H00, H03, H30, H33. cbn [s_leb real].
  rewrite (proj2 (Rleb_le 0 3)) by lra. rewrite (Rleb_gt 3 0) by lra.
  reflexivity.
Qed.

Example two_points_locals :
  predict_locals brute_kneighbors (PyInt 1) two_points
  = Ok (Locals [[3]; [3]]%R [[1]; [0]] [3; 3]%R 2 [1 / 3; 1 / 3]%R [1; 1]%R).
Proof.
  destruct two_points_distances as (H00 & H03 & H30 & H33).
  apply predict_locals_Ok.
  exists [[0; 3]; [0; 3]]%R, [[0; 1]; [1; 0]].
  split_and!; try done.
  - apply two_points_search_result.
  - apply for_each_xrange. split; [done|].
    intros [|[|i]] Hi; [| |simpl in Hi; lia]; eexists; (split; [done|]);
      unfold lrd_at, two_points;
      cbn [getitem lookup list_lookup take_indices for_each mbind
           result_bind indices k_dists];
      rewrite temp_euclidean;
      cbn [fmap list_fmap np_max_vstack2 zip_with py_sum foldl py_to_scalar
           s_add s_div s_of_Z s_zero s_maximum real];
      rewrite ?H03, ?H30, Rmax_left by lra; f_equal; field.
  - apply for_each_xrange. split; [done|].
    intros [|[|i]] Hi; [| |simpl in Hi; lia]; eexists; (split; [done|]);
      unfold lof_at;
      cbn [getitem lookup list_lookup take_indices for_each mbind
           result_bind indices lrd_value np_sum foldl py_to_scalar
           s_add s_div s_of_Z s_zero real];
      f_equal; field.
Qed.

(** ** The scores *)

Section Scores.
Context {F : Type} `{Scalar F}.
Variable kneighbors : pyval F → matrix F → result (matrix F * list (list nat)).

End Scores.

Section Float64Scores.
Import PrimFloat.




End Float64Scores.


(** ** Densities and k-distances *)

Section Density.
Context {F : Type} `{Scalar F}.
Variable kneighbors : pyval F → matrix F → result (matrix F * list (list nat)).


(** C2.  In a call of [predict] that returns, the local reachability
    density stored for row [i] is [kn] divided by the sum, over the [kn]
    neighbours [j] of [i], of the larger of the Euclidean distance from [i]
    to [j] and the k-distance of [j]. *)
Theorem lrd_is_k_over_reachability_sum (kn : nat)
    (h h' : heap F) (self X r : loc) (X_ : option value) (a : matrix F) :
  h !! self = Some (LOF (PyInt (Z.of_nat kn)) X_) →
  h !! X = Some (Ndarray2 a) →
  conforms kneighbors (S kn) a →
  predict kneighbors self X h = Some (Ok r, h') →
  ∃ tr, predict_locals kneighbors (PyInt (Z.of_nat kn)) a = Ok tr ∧
    h' !! r = Some (Ndarray1 (lof tr)) ∧
    ∀ i x, a !! i = Some x →
      ∃ idx rs, indices tr !! i = Some idx ∧ length idx = kn ∧
        Forall2 (λ j rd, reach_dist a (k_dists tr) x j = Some rd) idx rs ∧
        lrd_value tr !! i = Some (s_of_Z (Z.of_nat kn) / py_sum rs)%S.
Proof.
  intros Hself HX Hconf Hrun.
  apply (predict_Ok _ _ _ _ _ _ _ _ _ Hself HX) in Hrun
    as (tr & Htr & -> & ->).
  exists tr. split; [done|]. split; [by rewrite lookup_insert_eq|].
  destruct (predict_locals_search _ _ _ _ Hconf Htr)
    as (D & I & _ & Hpost & HI & _).
  apply predict_locals_Ok in Htr as (_ & _ & _ & _ & _ & _ & _ & Hlrd & _).
  apply for_each_xrange in Hlrd as [_ Hlrd].
  intros i x Hx.
  destruct (Hlrd i) as (v & Hv & Hat); [by eapply lookup_lt_Some|].
  apply lrd_at_Ok in Hat as (x' & idx & rs & Hx' & Hidx & Hrs & ->).
  assert (x' = x) as -> by congruence.
  exists idx, rs. split_and!; try done.
  destruct (neighbour_rows _ _ _ _ _ _ Hpost Hx)
    as (_ & idx' & _ & Hidx' & _ & Hlenidx & _).
  rewrite HI in Hidx. congruence.
Qed.

(** C4.  In a call of [predict] that returns, the k-distance of row [i] is
    the largest entry of the [kn] neighbour distances of row [i], which is
    their last entry: the distance to the farthest neighbour kept. *)
Theorem k_distance_is_largest_neighbour_distance `{!OrderedScalar F} (kn : nat)
    (h h' : heap F) (self X r : loc) (X_ : option value) (a : matrix F) :
  h !! self = Some (LOF (PyInt (Z.of_nat kn)) X_) →
  h !! X = Some (Ndarray2 a) →
  conforms kneighbors (S kn) a →
  predict kneighbors self X h = Some (Ok r, h') →
  ∃ tr, predict_locals kneighbors (PyInt (Z.of_nat kn)) a = Ok tr ∧
    h' !! r = Some (Ndarray1 (lof tr)) ∧
    ∀ i, i < length a →
      ∃ d kd, distances tr !! i = Some d ∧ length d = kn ∧
        k_dists tr !! i = Some kd ∧
        np_max d = Some kd ∧ d !! (kn - 1) = Some kd.
Proof.
  intros Hself HX Hconf Hrun.
  apply (predict_Ok _ _ _ _ _ _ _ _ _ Hself HX) in Hrun
    as (tr & Htr & -> & ->).
  exists tr. split; [done|]. split; [by rewrite lookup_insert_eq|].
  destruct (predict_locals_search _ _ _ _ Hconf Htr)
    as (D & I & _ & Hpost & _ & HD).
  apply predict_locals_Ok in Htr as (_ & _ & _ & _ & _ & Hkd & _).
  apply last_column_Ok in Hkd.
  intros i Hi. destruct (lookup_lt_is_Some_2 a i Hi) as [x Hx].
  destruct (knn_post_row _ _ _ _ _ _ Hpost Hx) as (d0 & idx0 & Hd0 & _ & Hrow).
  destruct (knn_row_in_range _ _ _ _ _ Hrow) as [Hlen0 _].
  pose proof (columns_from_1_lookup _ _ _ Hd0) as Hd. rewrite <-HD in Hd.
  destruct (Forall2_lookup_l _ _ _ _ _ Hkd Hd) as (kd & Hkdi & Hlast).
  exists (drop 1 d0), kd.
  assert (length (drop 1 d0) = kn) as Hlen by (rewrite length_drop; lia).
  split_and!; try done.
  - rewrite <-Hlast. apply np_max_sorted.
    pose proof (knn_sorted _ _ _ _ _ Hrow) as Hsorted.
    rewrite <-(take_drop 1 d0) in Hsorted.
    by apply StronglySorted_app_1_r in Hsorted.
  - rewrite <-Hlast, last_lookup, Hlen. f_equal. lia.
Qed.

End Density.

(** The densities of the two points 0 and 3 with [k = 1], over the reals. *)
Lemma lrd_is_k_over_reachability_sum_witness :
  ∃ r h' tr,
    predict brute_kneighbors 1%positive 2%positive two_points_store
      = Some (Ok r, h') ∧
    predict_locals brute_kneighbors (PyInt (Z.of_nat 1)) two_points = Ok tr ∧
    h' !! r = Some (Ndarray1 (lof tr)) ∧
    ∀ i x, two_points !! i = Some x →
      ∃ idx rs, indices tr !! i = Some idx ∧ length idx = 1 ∧
        Forall2 (λ j rd, reach_dist two_points (k_dists tr) x j = Some rd)
          idx rs ∧
        lrd_value tr !! i = Some (s_of_Z (Z.of_nat 1) / py_sum rs)%S.
Proof.
  destruct two_points_run as (tr0 & _ & Hrun).
  destruct (lrd_is_k_over_reachability_sum brute_kneighbors 1 _ _ _ _ _ _ _
              two_points_self two_points_X
              (brute_kneighbors_conforms 2 two_points) Hrun)
    as (tr & Htr & Hr & Hlrd).
  by eexists _, _, tr.
Defined.

(** ** [fit] *)

Section Fit.
Context {F : Type} `{Scalar F}.

Lemma positive_int_check (k : pyval F) :
  py_le_0 k || negb (isinstance_int k) = false ↔ positive_int k.
Proof.
  unfold positive_int. destruct k as [z|f]; simpl.
  - rewrite orb_false_r, Z.leb_gt. split.
    + intros Hz. by exists z.
    + by intros (z' & [= <-] & Hz).
  - rewrite orb_true_r. split; [done | by intros (z & [=] & _)].
Qed.

(** C5.  On a detector, [fit] raises exactly when [k] is not a positive
    integer; the exception is the [ValueError] of line 26, raised by [fit]
    itself, with the store left as it was; [k = 0], [k = -3] and every
    float [k] (2.5 among them) fail; when [k] is a positive integer [fit]
    stores the reference to [X] and returns [self]. *)
Theorem fit_checks_k (h : heap F) (self : loc) (X y : value)
    (k : pyval F) (X_ : option value) :
  h !! self = Some (LOF k X_) →
  ((∃ e h', fit self X y h = (Raise e, h')) ↔ ¬ positive_int k) ∧
  (¬ positive_int k → fit self X y h = (Raise InvalidParameter, h)) ∧
  (positive_int k →
     fit self X y h = (Ok self, <[self := LOF k (Some X)]> h)) ∧
  (∀ f, k = PyInt 0 ∨ k = PyInt (-3) ∨ k = PyFloat f →
     fit self X y h = (Raise InvalidParameter, h)).
Proof.
  intros Hself. unfold fit. rewrite Hself.
  pose proof (positive_int_check k) as Hcheck.
  destruct (py_le_0 k || negb (isinstance_int k)).
  - assert (¬ positive_int k) as Hk by (intros Hk%Hcheck; discriminate).
    split_and!; [|done|done|done].
    split; [done | intros _; by eexists _, _].
  - assert (positive_int k) as Hk by (by apply Hcheck).
    split_and!; [|done|done|].
    + split; [by intros (e & h' & [=]) | done].
    + intros f [-> | [-> | ->]]; destruct Hk as (z & Hz & ?);
        simplify_eq; lia.
Qed.
End Fit.

(** [LOF(2.5).fit()] raises. *)
Lemma fit_checks_k_witness :
  ((∃ e h', fit 1%positive VNone VNone half_integer_store = (Raise e, h'))
   ↔ ¬ positive_int (PyFloat two_and_a_half)) ∧
  fit 1%positive VNone VNone half_integer_store
  = (Raise InvalidParameter, half_integer_store).
Proof.
  destruct (fit_checks_k half_integer_store 1%positive VNone VNone
              (PyFloat two_and_a_half) None eq_refl)
    as (Hiff & _ & _ & Hfloat).
  split; [exact Hiff|]. apply (Hfloat two_and_a_half). by right; right.
Defined.

(** ** Effects of [predict] on the store *)

Section Frame.
Context {F : Type} `{Scalar F}.
Variable kneighbors : pyval F → matrix F → result (matrix F * list (list nat)).

Lemma fresh_lookup (h : heap F) : h !! fresh (dom h) = None.
Proof. apply not_elem_of_dom, is_fresh. Qed.

(** Whatever [predict] is called on, the objects in the store stay as
    they are: the only change is the new array of scores. *)
Lemma predict_frame (h h' : heap F) (self X : loc) (res : result loc) :
  predict kneighbors self X h = Some (res, h') →
  ∀ l o, h !! l = Some o → h' !! l = Some o.
Proof.
  unfold predict. intros Hrun l o Hl.
  destruct (h !! self) as [[| |k X_]|]; try done.
  destruct (h !! X) as [[|a|]|]; try done.
  destruct (predict_locals kneighbors k a); simpl in Hrun;
    injection Hrun as <- <-; [|done].
  rewrite lookup_insert_ne; [done|].
  intros <-. by rewrite fresh_lookup in Hl.
Qed.

(** The outcome of a call is that of lines 43-64 on the value of [k] and
    the contents of [X]. *)
Lemma returned_scores_predict (h : heap F) (self X : loc) (k : pyval F)
    (X_ : option value) (a : matrix F) :
  h !! self = Some (LOF k X_) → h !! X = Some (Ndarray2 a) →
  predict kneighbors self X h ≫= returned_scores
  = Some (tr ← predict_locals kneighbors k a; Ok (lof tr)).
Proof.
  intros Hself HX. unfold predict. rewrite Hself, HX.
  destruct (predict_locals kneighbors k a) as [tr|e]; simpl; [|done].
  by rewrite lookup_insert_eq.
Qed.

(** C8.  Two calls of [predict] in a row on the same detector have the
    same outcome, arrays with identical scores or the same exception,
    when the second call is given the same array, and also when it is
    given any array [X2] with the same contents. *)
Theorem predict_deterministic (h h1 : heap F) (self X : loc) (k : pyval F)
    (X_ : option value) (a : matrix F) (res1 : result loc) :
  h !! self = Some (LOF k X_) →
  h !! X = Some (Ndarray2 a) →
  predict kneighbors self X h = Some (res1, h1) →
  ∃ out, returned_scores (res1, h1) = Some out ∧
    predict kneighbors self X h1 ≫= returned_scores = Some out ∧
    ∀ X2, h1 !! X2 = Some (Ndarray2 a) →
      predict kneighbors self X2 h1 ≫= returned_scores = Some out.
Proof.
  intros Hself HX Hrun.
  exists (tr ← predict_locals kneighbors k a; Ok (lof tr)). split_and!.
  - pose proof (returned_scores_predict _ _ _ _ _ _ Hself HX) as Hout.
    by rewrite Hrun in Hout.
  - eapply returned_scores_predict; by eapply predict_frame.
  - intros X2 HX2.
    eapply returned_scores_predict; [by eapply predict_frame | done].
Qed.

(** C9.  A call of [predict] changes no object of the store: the array
    [X], the detector with its [k] and [X_], and the array that [X_]
    refers to are as before; and the outcome is a function of the value
    of [k] and the contents of [X] alone: a call on any detector with the
    same [k] and any array with the same contents, in any store, has the
    same outcome. *)
Theorem predict_has_no_side_effects (h h' : heap F) (self X : loc)
    (k : pyval F) (X_ : option value) (a : matrix F) (res : result loc) :
  h !! self = Some (LOF k X_) →
  h !! X = Some (Ndarray2 a) →
  predict kneighbors self X h = Some (res, h') →
  (∀ l o, h !! l = Some o → h' !! l = Some o) ∧
  h' !! X = Some (Ndarray2 a) ∧
  h' !! self = Some (LOF k X_) ∧
  (∀ l o, X_ = Some (VRef l) → h !! l = Some o → h' !! l = Some o) ∧
  (∀ (hb : heap F) (selfb Xb : loc) (X_b : option value),
     hb !! selfb = Some (LOF k X_b) → hb !! Xb = Some (Ndarray2 a) →
     predict kneighbors selfb Xb hb ≫= returned_scores
     = returned_scores (res, h')).
Proof.
  intros Hself HX Hrun.
  pose proof (predict_frame _ _ _ _ _ Hrun) as Hframe.
  split_and!; [done | by apply Hframe | by apply Hframe | |].
  - intros l o _. apply Hframe.
  - intros hb selfb Xb X_b Hselfb HXb.
    pose proof (returned_scores_predict _ _ _ _ _ _ Hself HX) as Hout.
    rewrite Hrun in Hout.
    change (returned_scores (res, h') = Some
              (tr ← predict_locals kneighbors k a; Ok (lof tr))) in Hout.
    by rewrite Hout, (returned_scores_predict _ _ _ _ _ _ Hselfb HXb).
Qed.
End Frame.

(** What the caller gets for the two points 0 and 3 with [k = 1]. *)
Example two_points_scores :
  predict brute_kneighbors 1%positive 2%positive two_points_store ≫= returned_scores
  = Some (Ok [1%R; 1%R]).
Proof.
  rewrite (returned_scores_predict brute_kneighbors _ _ _ _ _ _
             two_points_self two_points_X).
  change (Z.of_nat 1) with 1%Z. by rewrite two_points_locals.
Qed.

(** Two calls in a row on the two points 0 and 3 with [k = 1]. *)
Lemma predict_deterministic_witness :
  ∃ res1 h1 out,
    predict brute_kneighbors 1%positive 2%positive two_points_store
      = Some (res1, h1) ∧
    returned_scores (res1, h1) = Some out ∧
    predict brute_kneighbors 1%positive 2%positive h1 ≫= returned_scores
      = Some out.
Proof.
  destruct two_points_run as (tr0 & _ & Hrun).
  destruct (predict_deterministic brute_kneighbors _ _ _ _ _ _ _ _
              two_points_self two_points_X Hrun)
    as (out & Hout1 & Hout2 & _).
  by eexists _, _, out.
Defined.

(** The store after a call on the two points 0 and 3 with [k = 1]. *)
Lemma predict_has_no_side_effects_witness :
  ∃ res h',
    predict brute_kneighbors 1%positive 2%positive two_points_store
      = Some (res, h') ∧
    (∀ l o, two_points_store !! l = Some o → h' !! l = Some o) ∧
    h' !! 2%positive = Some (Ndarray2 two_points) ∧
    h' !! 1%positive = Some (LOF (PyInt (Z.of_nat 1)) None) ∧
    (∀ (hb : heap R) (selfb Xb : loc) (X_b : option value),
       hb !! selfb = Some (LOF (PyInt (Z.of_nat 1)) X_b) →
       hb !! Xb = Some (Ndarray2 two_points) →
       predict brute_kneighbors selfb Xb hb ≫= returned_scores
       = returned_scores (res, h')).
Proof.
  destruct two_points_run as (tr0 & _ & Hrun).
  destruct (predict_has_no_side_effects brute_kneighbors _ _ _ _ _ _ _ _
              two_points_self two_points_X Hrun)
    as (Hframe & HX & Hself & _ & Hpure).
  by eexists _, _.
Defined.

(** ** Too few rows, and reachability sums that are zero *)

Section Failures.
Context {F : Type} `{Scalar F}.
Variable kneighbors : pyval F → matrix F → result (matrix F * list (list nat)).

(** A search within the contract finds [m] distinct rows only among at
    least [m] rows. *)
Lemma knn_post_enough_rows (m : nat) (X D : matrix F) (I : list (list nat)) :
  knn_post m X D I → 0 < length X → m ≤ length X.
Proof.
  intros Hpost HX.
  destruct (lookup_lt_is_Some_2 X 0 HX) as [x Hx].
  destruct (knn_post_row m X D I 0 x Hpost Hx) as (d & idx & _ & _ & Hrow).
  destruct (knn_row_in_range _ _ _ _ _ Hrow) as [_ Hrange].
  assert (length idx ≤ length (seq 0 (length X))) as Hle.
  { apply submseteq_length, NoDup_submseteq;
      [apply (knn_distinct _ _ _ _ _ Hrow)|].
    intros j Hj. apply elem_of_seq.
    rewrite Forall_forall in Hrange. specialize (Hrange j Hj). lia. }
  rewrite length_seq, (knn_length _ _ _ _ _ Hrow) in Hle. done.
Qed.

(** C6, as the code has it.  On an array of N rows with 1 <= N <= k, the
    neighbour search raises, and the call of [predict] fails with that
    very exception, the store unchanged: [predict] checks nothing itself. *)
Theorem predict_propagates_search_error (kn : nat)
    (h : heap F) (self X : loc) (X_ : option value) (a : matrix F) :
  h !! self = Some (LOF (PyInt (Z.of_nat kn)) X_) →
  h !! X = Some (Ndarray2 a) →
  conforms kneighbors (S kn) a →
  0 < length a ≤ kn →
  ∃ e, kneighbors (PyInt (Z.of_nat (S kn))) a = Raise e ∧
    predict kneighbors self X h = Some (Raise e, h).
Proof.
  intros Hself HX Hconf Hlen.
  destruct (kneighbors (PyInt (Z.of_nat (S kn))) a) as [[D I]|e] eqn:Hnn.
  - pose proof (knn_post_enough_rows _ _ _ _ (Hconf D I Hnn)). lia.
  - exists e. split; [done|].
    apply (predict_Raise _ _ _ _ _ _ _ _ _ Hself HX). split; [|done].
    unfold predict_locals. by rewrite py_add_1_int, Hnn.
Qed.

Lemma Forall2_functional {A B : Type} (f : A → option B) (l : list A)
    (k1 k2 : list B) :
  Forall2 (λ x y, f x = Some y) l k1 → Forall2 (λ x y, f x = Some y) l k2 →
  k1 = k2.
Proof.
  intros H1. revert k2. induction H1 as [|x y l k1 Hy _ IH]; intros k2 H2.
  - by apply Forall2_nil_inv_l in H2.
  - apply Forall2_cons_inv_l in H2 as (y' & k2' & Hy' & H2 & ->).
    f_equal; [congruence | by apply IH].
Qed.

(** C7, as the code has it.  Given a search result within the contract,
    a call of [predict] with [k >= 1] raises nothing and returns the
    scores, whatever the reachability sums are: the density of a row whose
    sum is zero is the quotient [k / 0], taken as it is. *)
Theorem zero_reachability_sum_is_divided_by (kn : nat)
    (h : heap F) (self X : loc) (X_ : option value) (a D : matrix F)
    (I : list (list nat)) :
  h !! self = Some (LOF (PyInt (Z.of_nat kn)) X_) →
  h !! X = Some (Ndarray2 a) →
  1 ≤ kn →
  kneighbors (PyInt (Z.of_nat (S kn))) a = Ok (D, I) →
  knn_post (S kn) a D I →
  ∃ tr, predict_locals kneighbors (PyInt (Z.of_nat kn)) a = Ok tr ∧
    predict kneighbors self X h
    = Some (Ok (fresh (dom h)), <[fresh (dom h) := Ndarray1 (lof tr)]> h) ∧
    ∀ i x idx rs, a !! i = Some x → indices tr !! i = Some idx →
      Forall2 (λ j rd, reach_dist a (k_dists tr) x j = Some rd) idx rs →
      py_sum rs = s_zero →
      lrd_value tr !! i = Some (s_of_Z (Z.of_nat kn) / s_zero)%S.
Proof.
  intros Hself HX Hkn Hnn Hpost.
  destruct (predict_total kneighbors kn h self X X_ a D I
              Hself HX Hkn Hnn Hpost) as (tr & Htr & Hrun).
  exists tr. split_and!; [done | done |].
  apply predict_locals_Ok in Htr as (_ & _ & _ & _ & _ & _ & _ & Hlrd & _).
  apply for_each_xrange in Hlrd as [_ Hlrd].
  intros i x idx rs Hx Hidx Hrs Hzero.
  destruct (Hlrd i) as (v & Hv & Hat); [by eapply lookup_lt_Some|].
  apply lrd_at_Ok in Hat as (x' & idx' & rs' & Hx' & Hidx' & Hrs' & ->).
  assert (x' = x) as -> by congruence.
  assert (idx' = idx) as -> by congruence.
  rewrite (Forall2_functional _ _ _ _ Hrs' Hrs), Hzero in Hv. done.
Qed.
End Failures.

Section Float64Runs.
Import PrimFloat.

(** The reference search on the three points [0, 0, 1] with
    [n_neighbors = 2], and its result is within the contract. *)
Lemma duplicate_points_search :
  brute_kneighbors (PyInt (Z.of_nat 2)) duplicate_points
  = Ok ([[0%float; 0%float]; [0%float; 0%float]; [0%float; 1%float]],
        [[0; 1]; [0; 1]; [2; 0]]).
Proof. by vm_compute. Qed.

Lemma duplicate_points_post :
  knn_post 2 duplicate_points
    [[0%float; 0%float]; [0%float; 0%float]; [0%float; 1%float]]
    [[0; 1]; [0; 1]; [2; 0]].
Proof. knn_post_by_evaluation. Qed.

Lemma duplicate_points_conforms : conforms brute_kneighbors 2 duplicate_points.
Proof.
  intros D I Hnn. rewrite duplicate_points_search in Hnn.
  injection Hnn as <- <-. apply duplicate_points_post.
Qed.

(** The call on these points with [k = 1]. *)
Lemma duplicate_points_run :
  predict brute_kneighbors 1%positive 2%positive
    (store_with (PyInt 1) duplicate_points)
  = Some (Ok 3%positive,
     <[3%positive := Ndarray1 [nan; nan; infinity]]>
       (store_with (PyInt 1) duplicate_points)).
Proof. by vm_compute. Qed.

(** Three points close together and one far away, [k = 2]: the scores of
    the three lie between 0.5 and 1.5, and the score of the far point is
    more than twice each of them. *)
Example outlier_scores_highest :
  ∃ tr s0 s1 s2 s3,
    predict_locals brute_kneighbors (PyInt 2) cluster_and_outlier = Ok tr ∧
    indices tr = [[1; 2]; [0; 2]; [1; 0]; [2; 1]] ∧
    lof tr = [s0; s1; s2; s3] ∧
    Forall (λ s, (0.5 <=? s)%float && (s <=? 1.5)%float
                 && (2 * s <? s3)%float = true) [s0; s1; s2].
Proof.
  eexists _, _, _, _, _. split; [by vm_compute|].
  split_and!; [done | done |]. all_by_evaluation.
Qed.

(** C7, as the claim states it, fails on the points [0, 0, 1] with
    [k = 1]: the one reachability distance of row 0 is 0, so its sum is 0;
    the call raises nothing, and the scores it returns are NaN, NaN and
    infinity. *)
Lemma zero_reachability_sum_yields_nan :
  predict brute_kneighbors 1%positive 2%positive
    (store_with (PyInt 1) duplicate_points)
  = Some (Ok 3%positive,
     <[3%positive := Ndarray1 [nan; nan; infinity]]>
       (store_with (PyInt 1) duplicate_points)) ∧
  ∃ tr, predict_locals brute_kneighbors (PyInt 1) duplicate_points = Ok tr ∧
    indices tr !! 0 = Some [1] ∧
    reach_dist duplicate_points (k_dists tr) [0%float] 1 = Some 0%float ∧
    py_sum [0%float] = 0%float ∧
    lof tr = [nan; nan; infinity].
Proof.
  split; [exact duplicate_points_run|].
  eexists. split; [by vm_compute|]. by vm_compute.
Qed.

(** C6, as the claim states it, fails on a single point with [k = 1]: the
    call fails with the [ValueError] raised inside the neighbour search,
    not with an exception that [predict] raises. *)
Lemma small_dataset_raises_search_error :
  length single_point ≤ 1 ∧
  predict brute_kneighbors 1%positive 2%positive
    (store_with (PyInt 1) single_point)
  = Some (Raise (Exn InSklearn "ValueError" "Expected n_neighbors <= n_samples"),
     store_with (PyInt 1) single_point) ∧
  ¬ ∃ e h', predict brute_kneighbors 1%positive 2%positive
              (store_with (PyInt 1) single_point) = Some (Raise e, h') ∧
            exn_origin e = InLof.
Proof.
  assert (predict brute_kneighbors 1%positive 2%positive
            (store_with (PyInt 1) single_point)
          = Some (Raise (Exn InSklearn "ValueError"
                      "Expected n_neighbors <= n_samples"),
             store_with (PyInt 1) single_point)) as Hrun by (by vm_compute).
  split_and!; [simpl; lia | done |].
  intros (e & h' & He & Horigin). rewrite Hrun in He.
  injection He as <- _. discriminate Horigin.
Qed.
End Float64Runs.

(** The k-distances of the points [0, 0, 1] with [k = 1], in float64. *)
Lemma k_distance_is_largest_neighbour_distance_witness :
  ∃ tr, predict_locals brute_kneighbors (PyInt (Z.of_nat 1)) duplicate_points
        = Ok tr ∧
    <[3%positive := Ndarray1 [PrimFloat.nan; PrimFloat.nan;
                              PrimFloat.infinity]]>
      (store_with (PyInt 1) duplicate_points) !! 3%positive
    = Some (Ndarray1 (lof tr)) ∧
    ∀ i, i < length duplicate_points →
      ∃ d kd, distances tr !! i = Some d ∧ length d = 1 ∧
        k_dists tr !! i = Some kd ∧
        np_max d = Some kd ∧ d !! (1 - 1) = Some kd.
Proof.
  exact (k_distance_is_largest_neighbour_distance brute_kneighbors 1
           (store_with (PyInt 1) duplicate_points) _ 1%positive 2%positive
           3%positive None duplicate_points eq_refl eq_refl
           duplicate_points_conforms duplicate_points_run).
Defined.

(** A single point with [k = 1], in float64: the search raises, and so
    does the call. *)
Lemma predict_propagates_search_error_witness :
  ∃ e, brute_kneighbors (PyInt (Z.of_nat 2)) single_point = Raise e ∧
    predict brute_kneighbors 1%positive 2%positive
      (store_with (PyInt 1) single_point)
    = Some (Raise e, store_with (PyInt 1) single_point).
Proof.
  apply (predict_propagates_search_error brute_kneighbors 1
           (store_with (PyInt 1) single_point) 1%positive 2%positive None
           single_point eq_refl eq_refl).
  - intros D I Hnn. by vm_compute in Hnn.
  - simpl. lia.
Defined.

(** The points [0, 0, 1] with [k = 1], in float64: the call returns. *)
Lemma zero_reachability_sum_is_divided_by_witness :
  ∃ tr, predict_locals brute_kneighbors (PyInt (Z.of_nat 1)) duplicate_points
        = Ok tr ∧
    predict brute_kneighbors 1%positive 2%positive
      (store_with (PyInt 1) duplicate_points)
    = Some (Ok (fresh (dom (store_with (PyInt 1) duplicate_points))),
       <[fresh (dom (store_with (PyInt 1) duplicate_points))
           := Ndarray1 (lof tr)]> (store_with (PyInt 1) duplicate_points)) ∧
    ∀ i x idx rs, duplicate_points !! i = Some x →
      indices tr !! i = Some idx →
      Forall2 (λ j rd, reach_dist duplicate_points (k_dists tr) x j = Some rd)
        idx rs →
      py_sum rs = s_zero →
      lrd_value tr !! i = Some (s_of_Z (Z.of_nat 1) / s_zero)%S.
Proof.
  apply (zero_reachability_sum_is_divided_by brute_kneighbors 1
           (store_with (PyInt 1) duplicate_points) 1%positive 2%positive None
           duplicate_points _ _ eq_refl eq_refl (le_n 1)
           duplicate_points_search duplicate_points_post).
Defined.

(** ** The neighbours *)

Section Neighbours.
Context {F : Type} `{Scalar F}.
Variable kneighbors : pyval F → matrix F → result (matrix F * list (list nat)).


End Neighbours.


Section Float64Neighbours.
Import PrimFloat.

End Float64Neighbours.

(** * Further properties of [LOF] *)

(** ** [fit] and [predict] together *)

Section FitAndPredict.
Context {F : Type} `{Scalar F}.
Variable kneighbors : pyval F → matrix F → result (matrix F * list (list nat)).

(** X1.  A call of [fit] after another one leaves the store that it leaves
    alone, and has the same result: the later call overrides the earlier
    one entirely, whatever the two calls are given and whether they raise
    or not. *)
Theorem fit_overrides_earlier_fit (h : heap F) (self : loc)
    (X1 y1 X2 y2 : value) :
  fit self X2 y2 (fit self X1 y1 h).2 = fit self X2 y2 h.
Proof.
  unfold fit at 2.
  destruct (h !! self) as [[v|m|k X_]|] eqn:Hself; simpl; try done.
  destruct (py_le_0 k || negb (isinstance_int k)) eqn:Hk; simpl; [done|].
  unfold fit. rewrite lookup_insert_eq, Hself, Hk.
  by rewrite insert_insert_eq.
Qed.

(** X2.  What [predict] gives its caller does not depend on any call of
    [fit]: after [fit], given any [X] and whether it raised or not, a call
    of [predict] has the same outcome as before it.  In particular
    [predict] runs on a detector that was never fitted, and on one whose
    [k] [fit] rejects. *)
Theorem predict_ignores_fit (h : heap F) (self X : loc) (Y y : value) :
  predict kneighbors self X (fit self Y y h).2 ≫= returned_scores
  = predict kneighbors self X h ≫= returned_scores.
Proof.
  unfold fit.
  destruct (h !! self) as [[v|m|k X_]|] eqn:Hself; simpl; try done.
  destruct (py_le_0 k || negb (isinstance_int k)); simpl; [done|].
  unfold predict. rewrite lookup_insert_eq, Hself.
  destruct (decide (X = self)) as [->|Hne].
  - by rewrite lookup_insert_eq, Hself.
  - rewrite lookup_insert_ne by done.
    destruct (h !! X) as [[v|a|k' X_']|]; try done.
    destruct (predict_locals kneighbors k a) as [tr|e]; simpl; [|done].
    by rewrite !lookup_insert_eq.
Qed.


(** X4.  With a neighbour search within the contract and [k >= 1], a call
    of [predict] on a detector and a 2-D array raises exactly when the
    search raises, and then with the exception of the search: no index of
    lines 45-62 is ever out of range. *)
Theorem predict_fails_only_when_search_fails (kn : nat)
    (h : heap F) (self X : loc) (X_ : option value) (a : matrix F)
    (e : exn) :
  h !! self = Some (LOF (PyInt (Z.of_nat kn)) X_) →
  h !! X = Some (Ndarray2 a) →
  1 ≤ kn →
  conforms kneighbors (S kn) a →
  (∃ h', predict kneighbors self X h = Some (Raise e, h')) ↔
  kneighbors (PyInt (Z.of_nat (S kn))) a = Raise e.
Proof.
  intros Hself HX Hkn Hconf. split.
  - intros [h' Hrun].
    apply (predict_Raise _ _ _ _ _ _ _ _ _ Hself HX) in Hrun as [Hrun _].
    destruct (kneighbors (PyInt (Z.of_nat (S kn))) a) as [[D I]|e'] eqn:Hnn.
    + destruct (predict_locals_total kneighbors kn a D I Hkn Hnn
                  (Hconf D I Hnn)) as [tr Htr].
      congruence.
    + unfold predict_locals in Hrun.
      rewrite py_add_1_int, Hnn in Hrun. simpl in Hrun.
      by injection Hrun as ->.
  - intros Hnn. exists h.
    apply (predict_Raise _ _ _ _ _ _ _ _ _ Hself HX). split; [|done].
    unfold predict_locals. by rewrite py_add_1_int, Hnn.
Qed.

(** X5.  [predict] does not check [k]: on a detector with [k = 0] and an
    array with at least one row, when the search returns the one nearest
    row of each row, the call fails at line 48 with the [IndexError] of
    [distances[:, -1]] on an array without columns, and leaves the store
    as it was. *)
Theorem predict_with_k_zero_raises_IndexError (h : heap F) (self X : loc)
    (X_ : option value) (a D : matrix F) (I : list (list nat)) :
  h !! self = Some (LOF (PyInt 0) X_) →
  h !! X = Some (Ndarray2 a) →
  0 < length a →
  kneighbors (PyInt 1) a = Ok (D, I) →
  knn_post 1 a D I →
  predict kneighbors self X h = Some (Raise IndexError, h).
Proof.
  intros Hself HX Hlen Hnn Hpost.
  apply (predict_Raise _ _ _ _ _ _ _ _ _ Hself HX). split; [|done].
  unfold predict_locals.
  change (py_add_1 (PyInt 0)) with (PyInt 1 : pyval F). rewrite Hnn. simpl.
  destruct (lookup_lt_is_Some_2 a 0 Hlen) as [x Hx].
  destruct (knn_post_row _ _ _ _ _ _ Hpost Hx) as (d & idx & Hd & _ & Hrow).
  destruct (knn_row_in_range _ _ _ _ _ Hrow) as [Hlend _].
  destruct D as [|d' D']; [done|]. injection Hd as ->.
  destruct d as [|d0 [|d1 d]]; try done.
Qed.

(** X6.  In a run of lines 43-64 that returns, with any neighbour search,
    [lrd_value] and [lof] have one entry for each row of [X], and every
    neighbour index that the two loops use is the index of a row of [X]
    and of an entry of [k_dists]. *)
Theorem predict_indices_in_range (k : pyval F) (X : matrix F)
    (tr : locals F) :
  predict_locals kneighbors k X = Ok tr →
  num_rows tr = length X ∧
  length (lrd_value tr) = length X ∧
  length (lof tr) = length X ∧
  ∀ i, i < length X →
    ∃ idx, indices tr !! i = Some idx ∧
      Forall (λ j, j < length X ∧ j < length (k_dists tr)) idx.
Proof.
  intros (D & I & _ & _ & _ & _ & Hn & Hlrd & Hlof)%predict_locals_Ok.
  apply for_each_xrange in Hlrd as [Hlenlrd Hlrd].
  apply for_each_xrange in Hlof as [Hlenlof _].
  split_and!; try done.
  intros i Hi. destruct (Hlrd i Hi) as (v & _ & Hat).
  apply lrd_at_Ok in Hat as (x & idx & rs & _ & Hidx & Hrs & _).
  exists idx. split; [done|].
  eapply Forall2_Forall_l; [done|]. apply Forall_forall.
  intros rd _ j Hreach. unfold reach_dist in Hreach.
  destruct (X !! j) as [xj|] eqn:Hj; [|done]. simpl in Hreach.
  destruct (k_dists tr !! j) as [kdj|] eqn:Hkd; [|done].
  split; by eapply lookup_lt_Some.
Qed.
End FitAndPredict.

Section Float64Calls.
Import PrimFloat.


Lemma single_point_search :
  brute_kneighbors (PyInt 1) single_point = Ok ([[0%float]], [[0]]).
Proof. by vm_compute. Qed.

Lemma single_point_post : knn_post 1 single_point [[0%float]] [[0]].
Proof. knn_post_by_evaluation. Qed.

Lemma duplicate_points_locals :
  ∃ tr, predict_locals brute_kneighbors (PyInt 1) duplicate_points = Ok tr.
Proof. eexists. by vm_compute. Qed.
End Float64Calls.


(** The points [0, 0, 1] with [k = 1], in float64: the search returns, and
    the call raises nothing. *)
Lemma predict_fails_only_when_search_fails_witness :
  (∃ h', predict brute_kneighbors 1%positive 2%positive
           (store_with (PyInt 1) duplicate_points) = Some (Raise IndexError, h'))
  ↔ brute_kneighbors (PyInt (Z.of_nat 2)) duplicate_points = Raise IndexError.
Proof.
  exact (predict_fails_only_when_search_fails brute_kneighbors 1
           (store_with (PyInt 1) duplicate_points) 1%positive 2%positive
           None duplicate_points IndexError eq_refl eq_refl (le_n 1)
           duplicate_points_conforms).
Defined.

(** A single point with [k = 0], in float64. *)
Lemma predict_with_k_zero_raises_IndexError_witness :
  predict brute_kneighbors 1%positive 2%positive
    (store_with (PyInt 0) single_point)
  = Some (Raise IndexError, store_with (PyInt 0) single_point).
Proof.
  exact (predict_with_k_zero_raises_IndexError brute_kneighbors
           (store_with (PyInt 0) single_point) 1%positive 2%positive None
           single_point _ _ eq_refl eq_refl (le_n 1)
           single_point_search single_point_post).
Defined.

(** The points [0, 0, 1] with [k = 1], in float64. *)
Lemma predict_indices_in_range_witness :
  ∃ tr, predict_locals brute_kneighbors (PyInt 1) duplicate_points = Ok tr ∧
    num_rows tr = length duplicate_points ∧
    length (lrd_value tr) = length duplicate_points ∧
    length (lof tr) = length duplicate_points ∧
    ∀ i, i < length duplicate_points →
      ∃ idx, indices tr !! i = Some idx ∧
        Forall (λ j, j < length duplicate_points ∧ j < length (k_dists tr))
          idx.
Proof.
  destruct duplicate_points_locals as [tr Htr]. exists tr.
  split; [done|].
  exact (predict_indices_in_range brute_kneighbors _ _ _ Htr).
Defined.

(** ** The construction of a detector, and the role of the data *)

Section Pipeline.
Context {F : Type} `{Scalar F}.
Variable kneighbors : pyval F → matrix F → result (matrix F * list (list nat)).

(** X7.  [LOF(kn).fit(X).predict(X)] with [kn >= 1], on an array for
    which the search returns a result within the contract: the constructor
    makes a new detector, [fit] returns it, and [predict] returns the
    scores in a new array; afterwards the detector holds [kn] and the
    reference to [X], the array [X] and every object that was there before
    are unchanged, and the detector, [X] and the array of scores are three
    different objects. *)
Theorem construct_fit_predict (kn : nat) (h : heap F) (X : loc) (y : value)
    (a D : matrix F) (I : list (list nat)) :
  h !! X = Some (Ndarray2 a) →
  1 ≤ kn →
  kneighbors (PyInt (Z.of_nat (S kn))) a = Ok (D, I) →
  knn_post (S kn) a D I →
  ∃ self h1 h2 r h3 tr,
    init (PyInt (Z.of_nat kn)) h = (self, h1) ∧
    fit self (VRef X) y h1 = (Ok self, h2) ∧
    predict kneighbors self X h2 = Some (Ok r, h3) ∧
    predict_locals kneighbors (PyInt (Z.of_nat kn)) a = Ok tr ∧
    h3 !! r = Some (Ndarray1 (lof tr)) ∧
    h3 !! self = Some (LOF (PyInt (Z.of_nat kn)) (Some (VRef X))) ∧
    h3 !! X = Some (Ndarray2 a) ∧
    self ≠ X ∧ r ≠ self ∧ r ≠ X ∧
    ∀ l o, h !! l = Some o → h3 !! l = Some o.
Proof.
  intros HX Hkn Hnn Hpost.
  set (self := fresh (dom h)).
  set (h1 := <[self := LOF (PyInt (Z.of_nat kn)) None]> h).
  set (h2 := <[self := LOF (PyInt (Z.of_nat kn)) (Some (VRef X))]> h1).
  assert (h !! self = None) as Hfresh by apply fresh_lookup.
  assert (self ≠ X) as HselfX by (intros ->; congruence).
  assert (h2 !! self = Some (LOF (PyInt (Z.of_nat kn)) (Some (VRef X))))
    as Hself2 by apply lookup_insert_eq.
  assert (h2 !! X = Some (Ndarray2 a)) as HX2.
  { unfold h2, h1. by rewrite !lookup_insert_ne. }
  destruct (predict_total kneighbors kn h2 self X _ a D I
              Hself2 HX2 Hkn Hnn Hpost) as (tr & Htr & Hrun).
  set (r := fresh (dom h2)) in *.
  assert (h2 !! r = None) as Hr by apply fresh_lookup.
  exists self, h1, h2, r, (<[r := Ndarray1 (lof tr)]> h2), tr.
  split_and!; try done.
  - unfold fit, h1. rewrite lookup_insert_eq.
    replace (py_le_0 (PyInt (Z.of_nat kn) : pyval F)
             || negb (isinstance_int (PyInt (Z.of_nat kn) : pyval F)))
      with false; [done|].
    symmetry. simpl. rewrite orb_false_r. apply Z.leb_gt. lia.
  - apply lookup_insert_eq.
  - rewrite lookup_insert_ne; [done|]. intros ->. congruence.
  - rewrite lookup_insert_ne; [done|]. intros ->. congruence.
  - intros ->. congruence.
  - intros ->. congruence.
  - intros l o Hl.
    assert (l ≠ self) by (intros ->; congruence).
    assert (h2 !! l = Some o) as Hl2.
    { unfold h2, h1. by rewrite !lookup_insert_ne. }
    rewrite lookup_insert_ne; [done|]. intros ->. congruence.
Qed.


End Pipeline.

Section Float64Pipeline.
Import PrimFloat.




End Float64Pipeline.

(** [LOF(1).fit(X).predict(X)] on the points [0, 0, 1], in float64, in a
    store that holds the array only. *)
Lemma construct_fit_predict_witness :
  ∃ self h1 h2 r h3 tr,
    init (PyInt (Z.of_nat 1)) (<[2%positive := Ndarray2 duplicate_points]> ∅)
      = (self, h1) ∧
    fit self (VRef 2%positive) VNone h1 = (Ok self, h2) ∧
    predict brute_kneighbors self 2%positive h2 = Some (Ok r, h3) ∧
    predict_locals brute_kneighbors (PyInt (Z.of_nat 1)) duplicate_points
      = Ok tr ∧
    h3 !! r = Some (Ndarray1 (lof tr)) ∧
    h3 !! self = Some (LOF (PyInt (Z.of_nat 1)) (Some (VRef 2%positive))) ∧
    h3 !! 2%positive = Some (Ndarray2 duplicate_points) ∧
    self ≠ 2%positive ∧ r ≠ self ∧ r ≠ 2%positive ∧
    ∀ l o, (<[2%positive := Ndarray2 duplicate_points]> ∅ : heap _) !! l
             = Some o → h3 !! l = Some o.
Proof.
  exact (construct_fit_predict brute_kneighbors 1
           (<[2%positive := Ndarray2 duplicate_points]> ∅) 2%positive VNone
           duplicate_points _ _ eq_refl (le_n 1)
           duplicate_points_search duplicate_points_post).
Defined.


(** * Properties of [ContractiveAutoEncoder.fit] *)

Section AutoEncoderFit.
Context {F shared : Type}.
Variable theano_function : Z → cA.outcome (@cA.compiled F shared).

Lemma train_epochs_batch_size (train_da : @cA.compiled F shared)
    (X : matrix F) (bs n : Z) (epochs : list Z) (s : cA.state shared) :
  cA.batch_size (cA.train_epochs train_da X bs n epochs s).2
  = cA.batch_size s.
Proof.
  revert s. induction epochs as [|epoch epochs IH]; intros s; [done|].
  simpl.
  destruct (cA.train_batches train_da X bs (cA.xrange n) [] (cA.params s))
    as [[c|class msg] v']; [|done].
  by rewrite IH.
Qed.

(** X12.  However [fit] ends (it returns, a keyword argument is missing,
    the batch size is 0, Theano raises while the training function is built
    or in the middle of the training), the attribute [batch_size] of the
    detector is afterwards the keyword argument [batch_size] when one was
    given, and as before when none was. *)
Theorem fit_binds_batch_size (X : matrix F) (kwargs : gmap string Z)
    (s : cA.state shared) :
  cA.batch_size (cA.fit theano_function X kwargs s).2
  = match kwargs !! "batch_size" with
    | Some batch_size => Some batch_size
    | None => cA.batch_size s
    end.
Proof.
  unfold cA.fit.
  destruct (kwargs !! "batch_size") as [bs|]; [|done].
  destruct (kwargs !! "training_epochs") as [ep|]; [|done].
  destruct (cA.int_div _ bs) as [n|class msg]; [|done].
  destruct (theano_function bs) as [train_da|class msg]; [|done].
  by rewrite train_epochs_batch_size.
Qed.

(** X13.  With a keyword argument missing, or with [batch_size=0], [fit]
    raises before the training function is built: the shared variables
    keep their values and nothing is printed, but [batch_size], when it
    was given, is bound already.  A missing [batch_size] is reported first,
    then a missing [training_epochs], then the division by 0. *)
Theorem fit_raises_before_training (X : matrix F) (kwargs : gmap string Z)
    (s : cA.state shared) :
  kwargs !! "batch_size" = None ∨ kwargs !! "training_epochs" = None ∨
    kwargs !! "batch_size" = Some 0%Z →
  ∃ class msg s',
    cA.fit theano_function X kwargs s = (cA.Raises class msg, s') ∧
    cA.params s' = cA.params s ∧ cA.stdout s' = cA.stdout s ∧
    (kwargs !! "batch_size" = None →
       class = "Exception" ∧ msg = "Need a batch size." ∧ s' = s) ∧
    (is_Some (kwargs !! "batch_size") → kwargs !! "training_epochs" = None →
       class = "Exception" ∧ msg = "How many training epochs?") ∧
    (is_Some (kwargs !! "batch_size") →
     is_Some (kwargs !! "training_epochs") →
       class = "ZeroDivisionError").
Proof.
  intros Hcase. unfold cA.fit.
  destruct (kwargs !! "batch_size") as [bs|] eqn:Hbs.
  - destruct (kwargs !! "training_epochs") as [ep|] eqn:Hep.
    + destruct Hcase as [?|[?|[= ->]]]; [done | done |]. simpl.
      eexists _, _, _. split; [done|]. by split_and!.
    + eexists _, _, _. split; [done|].
      split_and!; first [done | by intros _ [? [=]]].
  - eexists _, _, _. split; [done|].
    split_and!; first [done | by intros [? [=]]].
Qed.
End AutoEncoderFit.

(** ** The minibatches *)

Section Minibatches.
Context {A : Type}.

Lemma xrange_of_nat (n : nat) :
  cA.xrange (Z.of_nat n) = Z.of_nat <$> seq 0 n.
Proof. unfold cA.xrange. by rewrite Nat2Z.id. Qed.

(** A slice that lies within the array. *)
Lemma minibatch_in_range (X : list A) (b i : nat) :
  (i + 1) * b ≤ length X →
  cA.minibatch X (Z.of_nat b) (Z.of_nat i) = take b (drop (i * b) X).
Proof.
  intros Hle. unfold cA.minibatch, cA.slice.
  assert ((Z.of_nat i * Z.of_nat b <? 0)%Z = false) as ->
    by (apply Z.ltb_ge; lia).
  assert (((Z.of_nat i + 1) * Z.of_nat b <? 0)%Z = false) as ->
    by (apply Z.ltb_ge; lia).
  rewrite !Z.min_l by lia. f_equal; [lia|]. f_equal. lia.
Qed.

(** The number of minibatches, and the rows they cover, as natural
    numbers. *)
Lemma n_train_batches_nat (N : nat) (batch_size : Z) :
  (0 < batch_size)%Z →
  ∃ q b, batch_size = Z.of_nat b ∧ 0 < b ∧
    (Z.of_nat N / batch_size)%Z = Z.of_nat q ∧ q * b ≤ N.
Proof.
  intros Hpos.
  exists (Z.to_nat (Z.of_nat N / batch_size)), (Z.to_nat batch_size).
  assert (0 <= Z.of_nat N / batch_size)%Z by (apply Z.div_pos; lia).
  assert (batch_size * (Z.of_nat N / batch_size) <= Z.of_nat N)%Z
    by (apply Z.mul_div_le; lia).
  split_and!; first [lia | nia].
Qed.

Lemma minibatches_concat (X : list A) (b q : nat) :
  q * b ≤ length X →
  concat ((λ i, take b (drop (i * b) X)) <$> seq 0 q) = take (q * b) X.
Proof.
  induction q as [|q IH]; intros Hle; [done|].
  rewrite seq_S, fmap_app, concat_app, IH by lia. simpl.
  rewrite app_nil_r, take_take_drop. f_equal. lia.
Qed.

(** X14.  With a positive batch size, the minibatches of one epoch (the
    slices of lines 288-289 for the batch indices of line 298) have exactly
    [batch_size] rows each, and laid end to end they are the first
    [n_train_batches * batch_size] rows of the data, in order. *)
Theorem minibatches_are_consecutive_full_batches (X : list A)
    (batch_size : Z) :
  (0 < batch_size)%Z →
  let n_train_batches := (Z.of_nat (length X) / batch_size)%Z in
  Forall (λ index, length (cA.minibatch X batch_size index)
                   = Z.to_nat batch_size) (cA.xrange n_train_batches) ∧
  concat (cA.minibatch X batch_size <$> cA.xrange n_train_batches)
  = take (Z.to_nat (n_train_batches * batch_size)) X.
Proof.
  intros Hpos n_train_batches. unfold n_train_batches.
  destruct (n_train_batches_nat (length X) batch_size Hpos)
    as (q & b & -> & Hb & -> & Hle).
  rewrite xrange_of_nat. split.
  - apply Forall_fmap, Forall_forall. intros i [_ Hi]%elem_of_seq. simpl.
    rewrite minibatch_in_range by nia.
    rewrite length_take, length_drop, Nat2Z.id. nia.
  - rewrite <-list_fmap_compose.
    rewrite (list_fmap_ext _ (λ i, take b (drop (i * b) X))).
    + rewrite minibatches_concat by done. f_equal. lia.
    + intros k i [-> Hi]%lookup_seq. simpl.
      apply minibatch_in_range. nia.
Qed.

(** The minibatches of the data cut after the last whole minibatch are
    those of the data. *)
Lemma minibatch_of_whole_batches (X : list A) (b q i : nat) :
  q * b ≤ length X → i < q →
  cA.minibatch (take (q * b) X) (Z.of_nat b) (Z.of_nat i)
  = cA.minibatch X (Z.of_nat b) (Z.of_nat i).
Proof.
  intros Hle Hi.
  rewrite !minibatch_in_range by (rewrite ?length_take; nia).
  rewrite (take_drop_commute (take (q * b) X)), take_take,
    (take_drop_commute X).
  do 2 f_equal. nia.
Qed.
End Minibatches.

Section Training.
Context {F shared : Type}.
Variable theano_function : Z → cA.outcome (@cA.compiled F shared).

Lemma train_batches_ext (train_da : @cA.compiled F shared) (X X' : matrix F)
    (bs : Z) (batch_indices : list Z) (c : list F) (v : shared) :
  Forall (λ i, cA.minibatch X' bs i = cA.minibatch X bs i) batch_indices →
  cA.train_batches train_da X' bs batch_indices c v
  = cA.train_batches train_da X bs batch_indices c v.
Proof.
  intros Hall. revert c v.
  induction Hall as [|i batch_indices Hi _ IH]; intros c v; [done|].
  simpl. rewrite Hi.
  by destruct (train_da v (cA.minibatch X bs i)) as [[cost|class msg] v'].
Qed.

Lemma train_epochs_ext (train_da : @cA.compiled F shared) (X X' : matrix F)
    (bs n : Z) (epochs : list Z) (s : cA.state shared) :
  Forall (λ i, cA.minibatch X' bs i = cA.minibatch X bs i) (cA.xrange n) →
  cA.train_epochs train_da X' bs n epochs s
  = cA.train_epochs train_da X bs n epochs s.
Proof.
  intros Hall. revert s.
  induction epochs as [|epoch epochs IH]; intros s; [done|].
  simpl. rewrite (train_batches_ext _ X X') by done.
  by destruct (cA.train_batches train_da X bs (cA.xrange n) [] (cA.params s))
    as [[c|class msg] v'].
Qed.

(** X15.  The rows after the last whole minibatch take no part in the
    training: with a positive batch size, [fit] on the data and [fit] on
    the data cut after [n_train_batches * batch_size] rows end in the same
    way, with the same values of the shared variables and the same lines
    printed. *)
Theorem fit_ignores_incomplete_minibatch (X : matrix F)
    (kwargs : gmap string Z) (batch_size : Z) (s : cA.state shared) :
  kwargs !! "batch_size" = Some batch_size →
  (0 < batch_size)%Z →
  let n_train_batches := (Z.of_nat (length X) / batch_size)%Z in
  cA.fit theano_function
    (take (Z.to_nat (n_train_batches * batch_size)) X) kwargs s
  = cA.fit theano_function X kwargs s.
Proof.
  intros Hbs Hpos n_train_batches. unfold n_train_batches, cA.fit.
  rewrite Hbs.
  destruct (kwargs !! "training_epochs") as [ep|]; [|done].
  destruct (n_train_batches_nat (length X) batch_size Hpos)
    as (q & b & -> & Hb & Hq & Hle).
  rewrite Hq. unfold cA.int_div.
  assert ((Z.of_nat b =? 0)%Z = false) as -> by (apply Z.eqb_neq; lia).
  rewrite length_take, Hq.
  replace (Z.of_nat (Z.to_nat (Z.of_nat q * Z.of_nat b) `min` length X)
           / Z.of_nat b)%Z with (Z.of_nat q).
  2:{ rewrite Nat.min_l by lia. rewrite Z2Nat.id by lia.
      by rewrite Z.div_mul by lia. }
  destruct (theano_function (Z.of_nat b)) as [train_da|class msg]; [|done].
  apply train_epochs_ext. rewrite xrange_of_nat.
  apply Forall_fmap, Forall_forall. intros i [_ Hi]%elem_of_seq. simpl.
  replace (Z.to_nat (Z.of_nat q * Z.of_nat b)) with (q * b) by lia.
  apply minibatch_of_whole_batches; [done | lia].
Qed.

Lemma train_epochs_without_batches (train_da : @cA.compiled F shared)
    (X : matrix F) (bs n : Z) (epochs : list Z) (s : cA.state shared) :
  (n <= 0)%Z →
  cA.train_epochs train_da X bs n epochs s
  = (cA.Returns (),
     cA.State (cA.batch_size s) (cA.params s)
       (cA.stdout s ++ ((λ epoch, (epoch, [])) <$> epochs))).
Proof.
  intros Hn. revert s.
  induction epochs as [|epoch epochs IH]; intros s.
  - simpl. rewrite app_nil_r. by destruct s.
  - simpl. unfold cA.xrange. rewrite Z2Nat.nonpos by done. simpl.
    rewrite IH. simpl. by rewrite <-app_assoc.
Qed.

(** X16.  With a batch size that is negative or larger than the number
    of rows, there is no whole minibatch: once the training function is
    built, [fit] returns without a single training step.  The shared
    variables keep their values, and each epoch prints a line for an empty
    list of costs. *)
Theorem fit_without_whole_minibatch_trains_nothing (X : matrix F)
    (kwargs : gmap string Z) (batch_size training_epochs : Z)
    (train_da : @cA.compiled F shared) (s : cA.state shared) :
  kwargs !! "batch_size" = Some batch_size →
  kwargs !! "training_epochs" = Some training_epochs →
  (batch_size < 0 ∨ Z.of_nat (length X) < batch_size)%Z →
  theano_function batch_size = cA.Returns train_da →
  cA.fit theano_function X kwargs s
  = (cA.Returns (),
     cA.State (Some batch_size) (cA.params s)
       (cA.stdout s
        ++ ((λ epoch, (epoch, [])) <$> cA.xrange training_epochs))).
Proof.
  intros Hbs Hep Hsize Hfun. unfold cA.fit, cA.int_div.
  rewrite Hbs, Hep.
  assert ((batch_size =? 0)%Z = false) as -> by (apply Z.eqb_neq; lia).
  rewrite Hfun. rewrite train_epochs_without_batches; [done|].
  destruct Hsize as [Hneg|Hbig].
  - pose proof (Z.div_mod (Z.of_nat (length X)) batch_size).
    pose proof (Z.mod_neg_bound (Z.of_nat (length X)) batch_size). nia.
  - rewrite Z.div_small; lia.
Qed.

Lemma train_batches_length (train_da : @cA.compiled F shared) (X : matrix F)
    (bs : Z) (batch_indices : list Z) (c c' : list F) (v v' : shared) :
  cA.train_batches train_da X bs batch_indices c v = (cA.Returns c', v') →
  length c' = length c + length batch_indices.
Proof.
  revert c v. induction batch_indices as [|i batch_indices IH]; intros c v.
  - intros [= <- _]. simpl. lia.
  - simpl.
    destruct (train_da v (cA.minibatch X bs i)) as [[cost|class msg] v1];
      [|done].
    intros Hrest%IH. rewrite length_app in Hrest. simpl in *. lia.
Qed.

Lemma train_epochs_stdout (train_da : @cA.compiled F shared) (X : matrix F)
    (bs n : Z) (epochs : list Z) (s s' : cA.state shared) :
  cA.train_epochs train_da X bs n epochs s = (cA.Returns (), s') →
  ∃ cs, cA.stdout s' = cA.stdout s ++ zip epochs cs ∧
    length cs = length epochs ∧
    Forall (λ c, length c = Z.to_nat n) cs.
Proof.
  revert s. induction epochs as [|epoch epochs IH]; intros s.
  - intros [= <-]. exists []. by rewrite app_nil_r.
  - simpl.
    destruct (cA.train_batches train_da X bs (cA.xrange n) [] (cA.params s))
      as [[c|class msg] v'] eqn:Hc; [|done].
    intros (cs & Hout & Hlen & Hall)%IH.
    apply train_batches_length in Hc.
    exists (c :: cs). split_and!.
    + rewrite Hout. simpl. by rewrite <-app_assoc.
    + simpl. by rewrite Hlen.
    + constructor; [|done].
      rewrite Hc. unfold cA.xrange. rewrite length_fmap, length_seq. done.
Qed.

(** X17.  When [fit] returns, both keyword arguments were given, and it
    printed one line for each of the epochs [0, 1, ...,
    training_epochs - 1], in this order, each for the costs of
    [n_train_batches] training steps. *)
Theorem fit_prints_one_line_for_each_epoch (X : matrix F)
    (kwargs : gmap string Z) (s s' : cA.state shared) :
  cA.fit theano_function X kwargs s = (cA.Returns (), s') →
  ∃ batch_size training_epochs cs,
    kwargs !! "batch_size" = Some batch_size ∧
    kwargs !! "training_epochs" = Some training_epochs ∧
    batch_size ≠ 0%Z ∧
    cA.stdout s' = cA.stdout s ++ zip (cA.xrange training_epochs) cs ∧
    length cs = Z.to_nat training_epochs ∧
    Forall (λ c, length c
                 = Z.to_nat (Z.of_nat (length X) / batch_size)) cs.
Proof.
  unfold cA.fit, cA.int_div.
  destruct (kwargs !! "batch_size") as [bs|]; [|done].
  destruct (kwargs !! "training_epochs") as [ep|]; [|done].
  destruct (Z.eqb_spec bs 0) as [|Hbs]; [done|].
  destruct (theano_function bs) as [train_da|class msg]; [|done].
  intros (cs & Hout & Hlen & Hall)%train_epochs_stdout.
  exists bs, ep, cs. split_and!; try done.
  rewrite Hlen. unfold cA.xrange. by rewrite length_fmap, length_seq.
Qed.
End Training.

(** ** Runs with a recording training function *)

(** [fit(X, batch_size=0, training_epochs=2)] on five rows. *)
Lemma fit_raises_before_training_witness :
  ∃ class msg s',
    cA.fit cA.recording_function cA.five_rows
      {[ "batch_size" := 0%Z; "training_epochs" := 2%Z ]} cA.untrained
      = (cA.Raises class msg, s') ∧
    class = "ZeroDivisionError" ∧ cA.batch_size s' = Some 0%Z ∧
    cA.params s' = [] ∧ cA.stdout s' = [].
Proof.
  assert (({[ "batch_size" := 0%Z; "training_epochs" := 2%Z ]}
             : gmap string Z) !! "batch_size" = Some 0%Z) as Hbs
    by reflexivity.
  destruct (fit_raises_before_training cA.recording_function cA.five_rows
              {[ "batch_size" := 0%Z; "training_epochs" := 2%Z ]}
              cA.untrained (or_intror (or_intror Hbs)))
    as (class & msg & s' & Hfit & Hparams & Hout & _ & _ & Hzero).
  exists class, msg, s'. split_and!; [done | | | done | done].
  - apply Hzero; by eexists.
  - by injection Hfit as _ _ <-.
Defined.

(** Five rows in minibatches of two: two minibatches, which are the first
    four rows. *)
Lemma minibatches_are_consecutive_full_batches_witness :
  Forall (λ index, length (cA.minibatch cA.five_rows 2 index) = 2)
    (cA.xrange 2) ∧
  concat (cA.minibatch cA.five_rows 2 <$> cA.xrange 2)
  = [[10]; [11]; [12]; [13]]%Z.
Proof.
  exact (minibatches_are_consecutive_full_batches cA.five_rows 2 eq_refl).
Defined.

(** Five rows in minibatches of two, for two epochs: the fifth row is not
    used. *)
Lemma fit_ignores_incomplete_minibatch_witness :
  cA.fit cA.recording_function [[10]; [11]; [12]; [13]]%Z cA.two_by_two
    cA.untrained
  = cA.fit cA.recording_function cA.five_rows cA.two_by_two cA.untrained.
Proof.
  assert (cA.two_by_two !! "batch_size" = Some 2%Z) as Hbs by reflexivity.
  exact (fit_ignores_incomplete_minibatch cA.recording_function cA.five_rows
           cA.two_by_two 2 cA.untrained Hbs eq_refl).
Defined.

(** Five rows in minibatches of seven, for two epochs. *)
Lemma fit_without_whole_minibatch_trains_nothing_witness :
  cA.fit cA.recording_function cA.five_rows
    {[ "batch_size" := 7%Z; "training_epochs" := 2%Z ]} cA.untrained
  = (cA.Returns (), cA.State (Some 7%Z) [] [(0%Z, []); (1%Z, [])]).
Proof.
  assert (({[ "batch_size" := 7%Z; "training_epochs" := 2%Z ]}
             : gmap string Z) !! "batch_size" = Some 7%Z) as Hbs
    by reflexivity.
  assert (({[ "batch_size" := 7%Z; "training_epochs" := 2%Z ]}
             : gmap string Z) !! "training_epochs" = Some 2%Z) as Hep
    by reflexivity.
  assert (7 < 0 ∨ Z.of_nat (length cA.five_rows) < 7)%Z as Hsize
    by (right; reflexivity).
  exact (fit_without_whole_minibatch_trains_nothing cA.recording_function
           cA.five_rows {[ "batch_size" := 7%Z; "training_epochs" := 2%Z ]}
           7 2 _ cA.untrained Hbs Hep Hsize eq_refl).
Defined.

(** Five rows in minibatches of two, for two epochs: two lines, each for
    the costs of two training steps. *)
Lemma fit_prints_one_line_for_each_epoch_witness :
  ∃ s' batch_size training_epochs cs,
    cA.fit cA.recording_function cA.five_rows cA.two_by_two cA.untrained
      = (cA.Returns (), s') ∧
    cA.two_by_two !! "batch_size" = Some batch_size ∧
    cA.two_by_two !! "training_epochs" = Some training_epochs ∧
    batch_size ≠ 0%Z ∧
    cA.stdout s' = zip (cA.xrange training_epochs) cs ∧
    length cs = Z.to_nat training_epochs ∧
    Forall (λ c, length c = Z.to_nat (5 / batch_size)) cs.
Proof.
  assert (cA.fit cA.recording_function cA.five_rows cA.two_by_two
            cA.untrained
          = (cA.Returns (),
             cA.State (Some 2%Z)
               [[[10]; [11]]; [[12]; [13]]; [[10]; [11]]; [[12]; [13]]]%Z
               [(0, [2; 2]); (1, [2; 2])]%Z)) as Hfit by reflexivity.
  destruct (fit_prints_one_line_for_each_epoch cA.recording_function
              cA.five_rows cA.two_by_two cA.untrained _ Hfit)
    as (bs & ep & cs & Hbs & Hep & Hne & Hout & Hlen & Hall).
  eexists _, bs, ep, cs. split; [exact Hfit|].
  split_and!; assumption.
Defined.

(** ** A second call of [fit] *)

Section Resume.
Context {F shared : Type}.
Variable theano_function : Z → cA.outcome (@cA.compiled F shared).

Lemma train_epochs_app (train_da : @cA.compiled F shared) (X : matrix F)
    (bs n : Z) (epochs1 epochs2 : list Z) (s : cA.state shared) :
  cA.train_epochs train_da X bs n (epochs1 ++ epochs2) s
  = match cA.train_epochs train_da X bs n epochs1 s with
    | (cA.Returns _, s1) => cA.train_epochs train_da X bs n epochs2 s1
    | (cA.Raises class msg, s1) => (cA.Raises class msg, s1)
    end.
Proof.
  revert s. induction epochs1 as [|epoch epochs1 IH]; intros s; [done|].
  simpl.
  by destruct (cA.train_batches train_da X bs (cA.xrange n) [] (cA.params s))
    as [[c|class msg] v'].
Qed.

(** The epoch numbers and the lines printed before have no influence on
    the training. *)
Lemma train_epochs_numbers (train_da : @cA.compiled F shared) (X : matrix F)
    (bs n : Z) (epochs epochs' : list Z) (s s' : cA.state shared) :
  length epochs = length epochs' →
  cA.params s = cA.params s' →
  (cA.train_epochs train_da X bs n epochs s).1
  = (cA.train_epochs train_da X bs n epochs' s').1 ∧
  cA.params (cA.train_epochs train_da X bs n epochs s).2
  = cA.params (cA.train_epochs train_da X bs n epochs' s').2.
Proof.
  revert epochs' s s'.
  induction epochs as [|epoch epochs IH]; intros [|epoch' epochs'] s s' Hlen Hp;
    try done.
  simpl. rewrite <-Hp.
  destruct (cA.train_batches train_da X bs (cA.xrange n) [] (cA.params s))
    as [[c|class msg] v']; [|done].
  apply IH; [by injection Hlen | done].
Qed.

Lemma xrange_add (n m : Z) :
  (0 <= n)%Z → (0 <= m)%Z →
  cA.xrange (n + m) = cA.xrange n ++ ((λ i, (n + i)%Z) <$> cA.xrange m).
Proof.
  intros Hn Hm. unfold cA.xrange.
  rewrite Z2Nat.inj_add, seq_app, fmap_app by done. f_equal.
  rewrite Nat.add_0_l, <-(Nat.add_0_r (Z.to_nat n)), <-fmap_add_seq.
  rewrite <-!list_fmap_compose.
  apply list_fmap_ext. intros _ i _. simpl. lia.
Qed.

(** X18.  A second call of [fit] goes on from the values that the first
    left in the shared variables; nothing is initialised again.  After a
    call for [e1] epochs that returned, a call for [e2] epochs with the
    same data and batch size ends as one call for [e1 + e2] epochs ends,
    with the same values of the shared variables.  (The lines printed
    differ: the second call numbers its epochs from 0 again.) *)
Theorem fit_continues_training (X : matrix F) (kwargs : gmap string Z)
    (batch_size e1 e2 : Z) (s s1 : cA.state shared) :
  kwargs !! "batch_size" = Some batch_size →
  (0 <= e1)%Z → (0 <= e2)%Z →
  cA.fit theano_function X (<["training_epochs" := e1]> kwargs) s
    = (cA.Returns (), s1) →
  (cA.fit theano_function X (<["training_epochs" := e2]> kwargs) s1).1
  = (cA.fit theano_function X (<["training_epochs" := (e1 + e2)%Z]> kwargs)
       s).1 ∧
  cA.params
    (cA.fit theano_function X (<["training_epochs" := e2]> kwargs) s1).2
  = cA.params
      (cA.fit theano_function X
         (<["training_epochs" := (e1 + e2)%Z]> kwargs) s).2.
Proof.
  intros Hbs He1 He2. unfold cA.fit.
  rewrite !lookup_insert_eq, !lookup_insert_ne, Hbs by done.
  destruct (cA.int_div _ batch_size) as [n|class msg]; [|done].
  destruct (theano_function batch_size) as [train_da|class msg]; [|done].
  intros Hfirst. rewrite xrange_add, train_epochs_app, Hfirst by done.
  apply train_epochs_numbers; [by rewrite length_fmap|].
  done.
Qed.
End Resume.

(** One epoch, then one more, on five rows in minibatches of two. *)
Lemma fit_continues_training_witness :
  ∃ s1,
    cA.fit cA.recording_function cA.five_rows
      (<["training_epochs" := 1%Z]> cA.two_by_two) cA.untrained
      = (cA.Returns (), s1) ∧
    (cA.fit cA.recording_function cA.five_rows
       (<["training_epochs" := 1%Z]> cA.two_by_two) s1).1
    = (cA.fit cA.recording_function cA.five_rows
         (<["training_epochs" := (1 + 1)%Z]> cA.two_by_two) cA.untrained).1 ∧
    cA.params
      (cA.fit cA.recording_function cA.five_rows
         (<["training_epochs" := 1%Z]> cA.two_by_two) s1).2
    = cA.params
        (cA.fit cA.recording_function cA.five_rows
           (<["training_epochs" := (1 + 1)%Z]> cA.two_by_two) cA.untrained).2.
Proof.
  assert (cA.two_by_two !! "batch_size" = Some 2%Z) as Hbs by reflexivity.
  assert (0 <= 1)%Z as Hle by discriminate.
  assert (cA.fit cA.recording_function cA.five_rows
            (<["training_epochs" := 1%Z]> cA.two_by_two) cA.untrained
          = (cA.Returns (),
             cA.State (Some 2%Z) [[[10]; [11]]; [[12]; [13]]]%Z
               [(0, [2; 2])]%Z)) as Hfit by reflexivity.
  eexists. split; [exact Hfit|].
  exact (fit_continues_training cA.recording_function cA.five_rows
           cA.two_by_two 2 1 1 cA.untrained _ Hbs Hle Hle Hfit).
Defined.
